(** * LazyIRCModel: the lazily loaded CKD stage predictor

    A shallow embedding of [server/fastapi/lazy_model.py].

    Conventions of the embedding.
    - Python floats are idealised as exact rationals ([Q]); the one float
      that is not a rational and that a comparison treats specially, NaN,
      is a value of its own.  Rounding is not modelled.
    - A Python exception is a value of [exn]; a method of the class is a
      computation in the monad [M], which threads the object's fields and
      the state of NumPy's global random generator and may raise.
    - The unpickled classifier is opaque to this module.  It is a record
      of the attributes the code probes with [hasattr] or reads; what the
      third-party methods return is a field of that record.
    - [print] is logging and is left out. *)

From Stdlib Require Import QArith Qabs Lqa ZArith Lia.
From stdpp Require Import gmap strings list fin_maps.

Open Scope Q_scope.

(** ** Exceptions and results *)

Inductive exn : Type :=
| KeyError            (* a missing DataFrame column *)
| TypeError           (* an ordering comparison of a non-number *)
| ValueError          (* the truth value of an array of several elements *)
| IndexError          (* an index past the end of an array *)
| ZeroDivisionError   (* float division by zero *)
| AttributeError      (* a missing attribute *)
| ModelError.         (* any other [Exception] raised inside the classifier *)

Inductive result (A : Type) : Type :=
| Ok (a : A)
| Raise (e : exn).
Arguments Ok {A} a.
Arguments Raise {A} e.

Definition is_ok {A} (r : result A) : bool :=
  match r with Ok _ => true | Raise _ => false end.

(** ** Patient records and the one-row DataFrame *)

(** A cell of the record: a finite number (int, float or bool), the float
    NaN, anything that does not order against a number (a string, a
    category, [None]), or a NumPy array of two numbers or more, which
    compares element by element. *)
Inductive value : Type :=
| VNum (q : Q)
| VNaN
| VStr (s : string)
| VArray (first second : Q) (rest : list Q).

(** [Dict[str, Any]]: the items of the dict in insertion order.  The keys
    of a Python dict are pairwise distinct. *)
Definition PatientRecord : Type := list (string * value).

(** [pd.DataFrame([input_data])]: one row, one column per key, in the
    order of the keys. *)
Definition DataFrame : Type := list (string * value).

Definition pd_DataFrame (input_data : PatientRecord) : DataFrame := input_data.

(** [df.columns] *)
Definition columns (df : DataFrame) : list string := map fst df.

(** [df[name].values[0]] *)
Fixpoint df_item (df : DataFrame) (name : string) : result value :=
  match df with
  | [] => Raise KeyError
  | (k, v) :: rest => if String.eqb k name then Ok v else df_item rest name
  end.

(** The test [if v > n] for a number [n]: the comparison and the truth
    value of its result.  An array of several elements compares to an
    array of booleans, which has no truth value. *)
Definition py_gt (v : value) (n : Q) : result bool :=
  match v with
  | VNum q => Ok (negb (Qle_bool q n))
  | VNaN => Ok false
  | VStr _ => Raise TypeError
  | VArray _ _ _ => Raise ValueError
  end.

(** [a / b] on floats *)
Definition py_div (a b : Q) : result Q :=
  if Qeq_bool b 0 then Raise ZeroDivisionError else Ok (a / b).

(** [sum(xs)]: starts from 0 and adds from the left *)
Definition py_sum (xs : list Q) : Q := foldl Qplus 0 xs.

(** [len(xs)] as a number *)
Definition py_len {A} (xs : list A) : Q := inject_Z (Z.of_nat (length xs)).

(** ** The classifier object *)

(** What the wrapper can observe of the object stored in [self._model].
    [None] in an [option] field means that [hasattr] answers [False]. *)
Record model : Type := {
  (* type(m).__name__ *)
  type_name : string;
  (* bool(m): an object with [__bool__] or [__len__] may be falsy, and
     either method may raise *)
  truth : result bool;
  (* int(m.predict(df)[0]) *)
  m_predict : option (DataFrame -> result Z);
  (* [float(p) for p in m.predict_proba(df)[0]] *)
  m_predict_proba : option (DataFrame -> result (list Q));
  (* [int(c) for c in m.classes_] *)
  m_classes_ : result (list Z);
  (* [float(x) for x in m.feature_importances_] *)
  m_feature_importances_ : option (list Q)
}.

(** ** The wrapper object and the world around it *)

Record LazyIRCModel : Type := {
  _model : option model;
  _feature_importance : option (list (string * Q));
  _stage_probabilities : option (gmap Z Q);
  _model_loading : bool;
  _model_loaded : bool
}.

(** [np.random.random()] reads the next draw of the global generator:
    draw number [rng_pos] of the sequence [rng]. *)
Record world : Type := {
  self : LazyIRCModel;
  rng : nat -> Q;
  rng_pos : nat
}.

Definition with_self (f : LazyIRCModel -> LazyIRCModel) (w : world) : world :=
  {| self := f (self w); rng := rng w; rng_pos := rng_pos w |}.

Definition set_model (m : option model) (s : LazyIRCModel) : LazyIRCModel :=
  {| _model := m;
     _feature_importance := _feature_importance s;
     _stage_probabilities := _stage_probabilities s;
     _model_loading := _model_loading s;
     _model_loaded := _model_loaded s |}.

Definition set_feature_importance (fi : option (list (string * Q)))
    (s : LazyIRCModel) : LazyIRCModel :=
  {| _model := _model s;
     _feature_importance := fi;
     _stage_probabilities := _stage_probabilities s;
     _model_loading := _model_loading s;
     _model_loaded := _model_loaded s |}.

Definition set_stage_probabilities (sp : option (gmap Z Q))
    (s : LazyIRCModel) : LazyIRCModel :=
  {| _model := _model s;
     _feature_importance := _feature_importance s;
     _stage_probabilities := sp;
     _model_loading := _model_loading s;
     _model_loaded := _model_loaded s |}.

Definition set_model_loading (b : bool) (s : LazyIRCModel) : LazyIRCModel :=
  {| _model := _model s;
     _feature_importance := _feature_importance s;
     _stage_probabilities := _stage_probabilities s;
     _model_loading := b;
     _model_loaded := _model_loaded s |}.

Definition set_model_loaded (b : bool) (s : LazyIRCModel) : LazyIRCModel :=
  {| _model := _model s;
     _feature_importance := _feature_importance s;
     _stage_probabilities := _stage_probabilities s;
     _model_loading := _model_loading s;
     _model_loaded := b |}.

(** ** The monad of methods: state and exceptions *)

Definition M (A : Type) : Type := world -> result A * world.

Definition ret {A} (a : A) : M A := fun w => (Ok a, w).

Definition bind {A B} (c : M A) (k : A -> M B) : M B :=
  fun w =>
    match c w with
    | (Ok a, w') => k a w'
    | (Raise e, w') => (Raise e, w')
    end.

Definition lift {A} (r : result A) : M A := fun w => (r, w).

(** [try: body except Exception: handler].  The writes of [body] before
    the exception stay. *)
Definition try_except {A} (body : M A) (handler : exn -> M A) : M A :=
  fun w =>
    match body w with
    | (Ok a, w') => (Ok a, w')
    | (Raise e, w') => handler e w'
    end.

Definition read {A} (f : LazyIRCModel -> A) : M A := fun w => (Ok (f (self w)), w).

Definition write (f : LazyIRCModel -> LazyIRCModel) : M unit :=
  fun w => (Ok tt, with_self f w).

Definition np_random_random : M Q :=
  fun w => (Ok (rng w (rng_pos w)),
            {| self := self w; rng := rng w; rng_pos := S (rng_pos w) |}).

Declare Scope py_scope.
Delimit Scope py_scope with py.
Notation "'let*' x ':=' c 'in' k" := (bind c (fun x => k))
  (at level 10, x name, c at level 100, k at level 200) : py_scope.
Notation "c ';;;' k" := (bind c (fun _ => k))
  (at level 100, k at level 200, right associativity) : py_scope.
Open Scope py_scope.

(** [for x in xs: body x] *)
Fixpoint for_each {A} (xs : list A) (body : A -> M unit) : M unit :=
  match xs with
  | [] => ret tt
  | x :: rest => body x ;;; for_each rest body
  end.

(** A comprehension whose element expression may raise *)
Fixpoint comprehension {A B} (f : A -> result B) (xs : list A) : result (list B) :=
  match xs with
  | [] => Ok []
  | x :: rest =>
      match f x with
      | Raise e => Raise e
      | Ok y =>
          match comprehension f rest with
          | Raise e => Raise e
          | Ok ys => Ok (y :: ys)
          end
      end
  end.

(** [self._stage_probabilities[k] = v] *)
Definition setitem_stage_probabilities (k : Z) (v : Q) : M unit :=
  let* sp := read _stage_probabilities in
  match sp with
  | None => lift (Raise TypeError)
  | Some d => write (set_stage_probabilities (Some (<[k := v]> d)))
  end.

(** ** The methods *)

Definition creatinine_key : string := "Créatinine (mg/L)".

(** [[s for s in range(6) if s != predicted_stage]] *)
Definition other_stages (predicted_stage : Z) : list Z :=
  filter (fun s => s ≠ predicted_stage) (seqZ 0 6).

(** [_generate_fallback_probabilities] *)
Definition _generate_fallback_probabilities (predicted_stage : Z) : M unit :=
  let* r := np_random_random in
  let confidence := 0.75 + (r * 0.2) in
  let remaining := 1.0 - confidence in
  write (set_stage_probabilities
           (Some (list_to_map
                    [(0%Z, 0.0); (1%Z, 0.0); (2%Z, 0.0);
                     (3%Z, 0.0); (4%Z, 0.0); (5%Z, 0.0)]))) ;;;
  setitem_stage_probabilities predicted_stage confidence ;;;
  let others := other_stages predicted_stage in
  for_each others (fun stage =>
    let* share := lift (py_div remaining (py_len others)) in
    setitem_stage_probabilities stage share).

(** The priority table of [_generate_fallback_feature_importance] *)
Definition priority_table : list (string * Q) :=
  [ ("Créatinine (mg/L)"%string, 0.35);
    ("Urée (g/L)"%string, 0.25);
    ("Age"%string, 0.15);
    ("TA (mmHg)/Systole"%string, 0.10);
    ("Na^+ (meq/L)"%string, 0.05);
    ("Score de Glasgow (/15)"%string, 0.05);
    ("Sexe_M"%string, 0.02);
    ("Anémie_True"%string, 0.03);
    ("Choc de Pointe/Perçu"%string, 0.02);
    ("Enquête Sociale/Tabac_True"%string, 0.015);
    ("Enquête Sociale/Alcool_True"%string, 0.015) ].

(** [{k: v/total for k, v in d.items()}] *)
Definition normalise (total : Q) (d : list (string * Q)) : result (list (string * Q)) :=
  comprehension
    (fun kv => match py_div (snd kv) total with
               | Ok q => Ok (fst kv, q)
               | Raise e => Raise e
               end) d.

(** [_generate_fallback_feature_importance] *)
Definition _generate_fallback_feature_importance (df : DataFrame) : M unit :=
  let features := columns df in
  write (set_feature_importance (Some priority_table)) ;;;
  let kept := filter (fun kv => fst kv ∈ features) priority_table in
  write (set_feature_importance (Some kept)) ;;;
  let total := py_sum (map snd kept) in
  let* normalised := lift (normalise total kept) in
  write (set_feature_importance (Some normalised)).

(** [_fallback_predict] *)
Definition _fallback_predict (df : DataFrame) : M Z :=
  let* creatinine := lift (df_item df creatinine_key) in
  let* stage :=
    (let* gt200 := lift (py_gt creatinine 200) in
     if gt200 then ret 5%Z else
     let* gt100 := lift (py_gt creatinine 100) in
     if gt100 then ret 4%Z else
     let* gt50 := lift (py_gt creatinine 50) in
     if gt50 then ret 3%Z else
     let* gt20 := lift (py_gt creatinine 20) in
     if gt20 then ret 2%Z else
     let* gt15 := lift (py_gt creatinine 15) in
     if gt15 then ret 1%Z else
     ret 0%Z) in
  _generate_fallback_probabilities stage ;;;
  _generate_fallback_feature_importance df ;;;
  ret stage.

(** [{names[i]: float(importances[i]) for i in range(len(names))}] *)
Definition pair_importances (names : list string) (importances : list Q)
    : result (list (string * Q)) :=
  comprehension
    (fun i => match names !! i, importances !! i with
              | Some k, Some v => Ok (k, v)
              | _, _ => Raise IndexError
              end)
    (seq 0 (length names)).

(** [_calculate_feature_importance] *)
Definition _calculate_feature_importance (df : DataFrame) : M unit :=
  try_except
    (let* mdl := read _model in
     match mdl ≫= m_feature_importances_ with
     | Some importances =>
         let feature_names := columns df in
         let* raw := lift (pair_importances feature_names importances) in
         write (set_feature_importance (Some raw)) ;;;
         let total := py_sum (map snd raw) in
         let* normalised := lift (normalise total raw) in
         write (set_feature_importance (Some normalised))
     | None => _generate_fallback_feature_importance df
     end)
    (fun _ => _generate_fallback_feature_importance df).

(** [{int(classes[i]): float(proba[i]) for i in range(len(classes))}]:
    a class listed twice keeps its last probability. *)
Fixpoint class_probabilities (acc : gmap Z Q) (classes : list Z) (proba : list Q)
    : result (gmap Z Q) :=
  match classes with
  | [] => Ok acc
  | c :: cs =>
      match proba with
      | [] => Raise IndexError
      | p :: ps => class_probabilities (<[c := p]> acc) cs ps
      end
  end.

(** The body of the [try] of [predict] (lines 82 to 104) *)
Definition predict_try (input_data : PatientRecord) : M Z :=
  let df := pd_DataFrame input_data in
  let* mdl := read _model in
  match mdl ≫= m_predict with
  | None => _fallback_predict df
  | Some model_predict =>
      let* predicted_stage := lift (model_predict df) in
      match mdl ≫= m_predict_proba with
      | Some model_predict_proba =>
          let* proba := lift (model_predict_proba df) in
          let* classes := lift (from_option m_classes_ (Raise AttributeError) mdl) in
          let* sp := lift (class_probabilities ∅ classes proba) in
          write (set_stage_probabilities (Some sp))
      | None => _generate_fallback_probabilities predicted_stage
      end ;;;
      _calculate_feature_importance df ;;;
      ret predicted_stage
  end.

(** [predict] *)
Definition predict (input_data : PatientRecord) : M Z :=
  let* loaded := read _model_loaded in
  if negb loaded then
    let df := pd_DataFrame input_data in
    _fallback_predict df
  else
    try_except (predict_try input_data)
      (fun _ => _fallback_predict (pd_DataFrame input_data)).

(** [is_model_ready] *)
Definition is_model_ready : M bool := read _model_loaded.

(** [get_stage_probabilities]: a dict is truthy when it is not empty. *)
Definition get_stage_probabilities : M (gmap Z Q) :=
  let* sp := read _stage_probabilities in
  match sp with
  | Some d => if bool_decide (d = ∅) then ret ∅ else ret d
  | None => ret ∅
  end.

(** [get_feature_importance] *)
Definition get_feature_importance : M (list (string * Q)) :=
  let* fi := read _feature_importance in
  match fi with
  | Some (kv :: d) => ret (kv :: d)
  | Some [] => ret []
  | None => ret []
  end.

Record ModelStatus : Type := {
  model_loaded : bool;
  model_loading : bool;
  model_type : string
}.

(** [get_status]: [if self._model] is the truth value of the object, not
    a test against [None]. *)
Definition get_status : M ModelStatus :=
  let* loaded := read _model_loaded in
  let* loading := read _model_loading in
  let* mdl := read _model in
  let* ty :=
    match mdl with
    | None => ret "None"%string
    | Some m =>
        let* truthy := lift (truth m) in
        if truthy then ret (type_name m) else ret "None"%string
    end in
  ret {| model_loaded := loaded; model_loading := loading; model_type := ty |}.

(** ** Construction and the background loader *)

(** What the loader thread finds outside the process: the result of
    [pickle.load] on the model file (or the exception of [open]), and the
    result of importing and calling [RandomForestClassifier]. *)
Record environment : Type := {
  pickle_load : result model;
  RandomForestClassifier : result model
}.

(** The body of [__init__] before the thread is started (lines 15 to 19) *)
Definition blank : LazyIRCModel :=
  {| _model := None;
     _feature_importance := None;
     _stage_probabilities := None;
     _model_loading := false;
     _model_loaded := false |}.

(** [_start_loading_model]: the write of line 26; the thread it starts
    begins at [Started]. *)
Definition _start_loading_model (s : LazyIRCModel) : LazyIRCModel :=
  set_model_loading true s.

(** Where the loader thread stands, between two writes to the object.
    Each write is one attribute store, atomic under the interpreter
    lock. *)
Inductive loader_pc : Type :=
| Started             (* running lines 34 to 41: sleep, open, unpickle *)
| ModelStored         (* line 41 done *)
| LoadedSet           (* line 43 done *)
| FinishedReady       (* line 44 done, thread over *)
| Caught              (* in the handler of line 46 *)
| LoadingCleared      (* line 48 done *)
| FallbackStored      (* line 58 done *)
| FinishedFallback    (* line 59 done, thread over *)
| Died.               (* [_create_fallback_model] raised, thread over *)

(** One step of [_load_model] and [_create_fallback_model] *)
Definition loader_next (env : environment) (pc : loader_pc) (s : LazyIRCModel)
    : loader_pc * LazyIRCModel :=
  match pc with
  | Started =>
      match pickle_load env with
      | Ok m => (ModelStored, set_model (Some m) s)
      | Raise _ => (Caught, s)
      end
  | ModelStored => (LoadedSet, set_model_loaded true s)
  | LoadedSet => (FinishedReady, set_model_loading false s)
  | Caught => (LoadingCleared, set_model_loading false s)
  | LoadingCleared =>
      match RandomForestClassifier env with
      | Ok m => (FallbackStored, set_model (Some m) s)
      | Raise _ => (Died, s)
      end
  | FallbackStored => (FinishedFallback, set_model_loaded true s)
  | FinishedReady => (FinishedReady, s)
  | FinishedFallback => (FinishedFallback, s)
  | Died => (Died, s)
  end.

(** The process: the wrapper in its world, and the loader thread. *)
Record system : Type := {
  sys_world : world;
  sys_pc : loader_pc
}.

(** What can happen next: the loader thread advances by one write, or
    the caller invokes a method of the public interface.  A call is one
    step: the methods write the two caches only and the loader writes
    the three other fields only, and the loader never changes [_model]
    once the flag that [predict] tests is set. *)
Inductive action : Type :=
| LoaderStep
| CallPredict (input_data : PatientRecord)
| CallIsModelReady
| CallGetStageProbabilities
| CallGetFeatureImportance
| CallGetStatus.

Definition sys_step (env : environment) (sys : system) (a : action) : system :=
  match a with
  | LoaderStep =>
      let '(pc', s') := loader_next env (sys_pc sys) (self (sys_world sys)) in
      {| sys_world := with_self (fun _ => s') (sys_world sys); sys_pc := pc' |}
  | CallPredict input_data =>
      {| sys_world := snd (predict input_data (sys_world sys)); sys_pc := sys_pc sys |}
  | CallIsModelReady =>
      {| sys_world := snd (is_model_ready (sys_world sys)); sys_pc := sys_pc sys |}
  | CallGetStageProbabilities =>
      {| sys_world := snd (get_stage_probabilities (sys_world sys)); sys_pc := sys_pc sys |}
  | CallGetFeatureImportance =>
      {| sys_world := snd (get_feature_importance (sys_world sys)); sys_pc := sys_pc sys |}
  | CallGetStatus =>
      {| sys_world := snd (get_status (sys_world sys)); sys_pc := sys_pc sys |}
  end.

(** [LazyIRCModel()]: the state when the constructor returns. *)
Definition construct (draws : nat -> Q) (pos : nat) : system :=
  {| sys_world := {| self := _start_loading_model blank; rng := draws; rng_pos := pos |};
     sys_pc := Started |}.

Definition run (env : environment) (sys : system) (acts : list action) : system :=
  foldl (sys_step env) sys acts.

(** The states a run goes through, the first one included *)
Fixpoint trace (env : environment) (sys : system) (acts : list action) : list system :=
  match acts with
  | [] => [sys]
  | a :: rest => sys :: trace env (sys_step env sys a) rest
  end.

Definition ready (sys : system) : bool := _model_loaded (self (sys_world sys)).

(** How often the readiness flag goes from false to true along a trace *)
Fixpoint flips (states : list system) : nat :=
  match states with
  | a :: (b :: _) as rest =>
      (if negb (ready a) && ready b then 1 else 0)%nat + flips rest
  | _ => 0%nat
  end.

Definition is_predict_call (a : action) : bool :=
  match a with CallPredict _ => true | _ => false end.

(** ** Vocabulary of the specification *)

(** The six CKD stages *)
Definition stages : gset Z := {[0; 1; 2; 3; 4; 5]}%Z.

(** The sum of the values of a stage-probability mapping *)
Definition sum_values (d : gmap Z Q) : Q :=
  map_fold (fun _ v acc => v + acc) 0 d.

(** A record is a dict: no key occurs twice. *)
Definition well_formed (input_data : PatientRecord) : Prop :=
  NoDup (map fst input_data).


(** The synthetic confidence of a draw *)
Definition confidence_of (r : Q) : Q := 0.75 + 0.2 * r.

(** [predict] takes the rule-based path: the flag is not set, or the
    stored object has no [predict], or the body of the [try] raises. *)
Definition routes_to_fallback (input_data : PatientRecord) (w : world) : Prop :=
  _model_loaded (self w) = false
  ∨ _model (self w) ≫= m_predict = None
  ∨ ∃ e, fst (predict_try input_data w) = Raise e.

(** ** Closed forms of what the methods compute *)

(** The dict the generator leaves in [_stage_probabilities] *)
Definition synthetic (r : Q) (s : Z) : gmap Z Q :=
  foldl (fun d k => <[k := (1.0 - (0.75 + r * 0.2)) / py_len (other_stages s)]> d)
        (<[s := 0.75 + r * 0.2]>
           (list_to_map [(0%Z, 0.0); (1%Z, 0.0); (2%Z, 0.0);
                         (3%Z, 0.0); (4%Z, 0.0); (5%Z, 0.0)]))
        (other_stages s).

(** The entries of the priority table that survive the filter *)
Definition kept_features (df : DataFrame) : list (string * Q) :=
  filter (fun kv => fst kv ∈ columns df) priority_table.

(** The dict the fallback generator leaves in [_feature_importance] *)
Definition fallback_importance (df : DataFrame) : list (string * Q) :=
  map (fun kv => (fst kv, snd kv / py_sum (map snd (kept_features df))))
      (kept_features df).

(** The stage the chain of comparisons of [_fallback_predict] selects *)
Definition rule_stage (v : value) : result Z :=
  match v with
  | VNum c =>
      Ok (if negb (Qle_bool c 200) then 5
          else if negb (Qle_bool c 100) then 4
          else if negb (Qle_bool c 50) then 3
          else if negb (Qle_bool c 20) then 2
          else if negb (Qle_bool c 15) then 1
          else 0)%Z
  | VNaN => Ok 0%Z
  | VStr _ => Raise TypeError
  | VArray _ _ _ => Raise ValueError
  end.

(** The world a successful [_fallback_predict] leaves *)
Definition after_fallback (df : DataFrame) (stage : Z) (w : world) : world :=
  {| self := set_feature_importance (Some (fallback_importance df))
               (set_stage_probabilities
                  (Some (synthetic (rng w (rng_pos w)) stage)) (self w));
     rng := rng w; rng_pos := S (rng_pos w) |}.

(** Where the cached stage probabilities of a returning call come from *)
Inductive probabilities_origin (df : DataFrame) (w : world) (z : Z)
    : option (gmap Z Q) → Prop :=
| origin_synthetic (r : Q) :
    probabilities_origin df w z (Some (synthetic r z))
| origin_model (m : model) (f : DataFrame → result (list Q))
      (proba : list Q) (classes : list Z) (sp : gmap Z Q) :
    _model (self w) = Some m →
    m_predict_proba m = Some f →
    f df = Ok proba →
    m_classes_ m = Ok classes →
    class_probabilities ∅ classes proba = Ok sp →
    probabilities_origin df w z (Some sp).

(** Where the stage of a returning call comes from *)
Inductive stage_origin (df : DataFrame) (w : world) (z : Z) : Prop :=
| stage_rule (v : value) :
    df_item df creatinine_key = Ok v → rule_stage v = Ok z →
    stage_origin df w z
| stage_model (m : model) (f : DataFrame → result Z) :
    _model (self w) = Some m → m_predict m = Some f → f df = Ok z →
    stage_origin df w z.

(** The fields only the loader thread writes *)
Definition same_handle (s s' : LazyIRCModel) : Prop :=
  _model s' = _model s
  ∧ _model_loading s' = _model_loading s
  ∧ _model_loaded s' = _model_loaded s.

(** A computation that leaves those fields alone, whatever it returns *)
Definition keeps_handle {A} (c : M A) : Prop :=
  ∀ w, same_handle (self w) (self (snd (c w))).

(** A computation that changes nothing at all *)
Definition read_only {A} (c : M A) : Prop := ∀ w, snd (c w) = w.

(** The loader has passed line 43 or line 59. *)
Definition load_completed (pc : loader_pc) : bool :=
  match pc with
  | LoadedSet | FinishedReady | FinishedFallback => true
  | _ => false
  end.

(** The loader has passed line 44 or line 48. *)
Definition loading_cleared (pc : loader_pc) : bool :=
  match pc with
  | Started | ModelStored | LoadedSet | Caught => false
  | _ => true
  end.

(** The object the loader has stored by the time it stands at [pc] *)
Definition stored_object (env : environment) (pc : loader_pc) : option model :=
  match pc with
  | Started | Caught | LoadingCleared | Died => None
  | ModelStored | LoadedSet | FinishedReady =>
      match pickle_load env with Ok m => Some m | Raise _ => None end
  | FallbackStored | FinishedFallback =>
      match RandomForestClassifier env with Ok m => Some m | Raise _ => None end
  end.

(** The positions the loader can reach in an environment *)
Definition reachable_pc (env : environment) (pc : loader_pc) : Prop :=
  match pc with
  | Started => True
  | ModelStored | LoadedSet | FinishedReady => is_ok (pickle_load env) = true
  | Caught | LoadingCleared => is_ok (pickle_load env) = false
  | FallbackStored | FinishedFallback =>
      is_ok (pickle_load env) = false
      ∧ is_ok (RandomForestClassifier env) = true
  | Died =>
      is_ok (pickle_load env) = false
      ∧ is_ok (RandomForestClassifier env) = false
  end.

(** The fields of the wrapper agree with the position of the loader. *)
Definition loader_inv (env : environment) (sys : system) : Prop :=
  let s := self (sys_world sys) in
  reachable_pc env (sys_pc sys)
  ∧ _model s = stored_object env (sys_pc sys)
  ∧ _model_loading s = negb (loading_cleared (sys_pc sys))
  ∧ _model_loaded s = load_completed (sys_pc sys).

(** ** Sample objects, records and worlds *)

(** An unpickled empty list: it has a type, it is falsy, and it has none
    of the attributes of a classifier. *)
Definition empty_list_object : model :=
  {| type_name := "list";
     truth := Ok false;
     m_predict := None;
     m_predict_proba := None;
     m_classes_ := Raise AttributeError;
     m_feature_importances_ := None |}.

(** A classifier that answers stage 3 with certainty and ranks nothing *)
Definition constant_classifier : model :=
  {| type_name := "DummyClassifier";
     truth := Ok true;
     m_predict := Some (fun _ => Ok 3%Z);
     m_predict_proba := Some (fun _ => Ok [1.0]);
     m_classes_ := Ok [3%Z];
     m_feature_importances_ := None |}.

(** The model file is missing and scikit-learn is not installed. *)
Definition bare_environment : environment :=
  {| pickle_load := Raise ModelError; RandomForestClassifier := Raise ModelError |}.

(** The model file holds an empty list. *)
Definition list_environment : environment :=
  {| pickle_load := Ok empty_list_object; RandomForestClassifier := Raise ModelError |}.

(** The model file holds the constant classifier. *)
Definition classifier_environment : environment :=
  {| pickle_load := Ok constant_classifier; RandomForestClassifier := Raise ModelError |}.

(** A generator whose every draw is one half *)
Definition half_draws : nat -> Q := fun _ => 0.5.

(** The wrapper as the constructor leaves it *)
Definition fresh_system : system := construct half_draws 0.

Definition fresh_world : world := sys_world fresh_system.

(** A record with a creatinine of 200 mg/L and an age *)
Definition boundary_record : PatientRecord :=
  [(creatinine_key, VNum 200); ("Age"%string, VNum 61)].

(** A record without creatinine *)
Definition age_only_record : PatientRecord := [("Age"%string, VNum 61)].

(** [RandomForestClassifier(n_estimators=10, random_state=42)] as line 58
    builds it, before any fit, as scikit-learn has it: [predict] and
    [predict_proba] exist and raise [NotFittedError]; there is no
    [classes_] yet; [feature_importances_] is a property that raises
    [NotFittedError], an [AttributeError], so that [hasattr] answers
    false; and the truth value comes from [__len__], which reads the
    missing [estimators_] and raises [AttributeError]. *)
Definition unfitted_forest : model :=
  {| type_name := "RandomForestClassifier";
     truth := Raise AttributeError;
     m_predict := Some (fun _ => Raise ModelError);
     m_predict_proba := Some (fun _ => Raise ModelError);
     m_classes_ := Raise AttributeError;
     m_feature_importances_ := None |}.

(** The model file is missing and scikit-learn is installed. *)
Definition missing_file_environment : environment :=
  {| pickle_load := Raise ModelError;
     RandomForestClassifier := Ok unfitted_forest |}.

(** The wrapper once the loader has fallen back on the unfitted forest
    and finished *)
Definition fallback_loaded_system : system :=
  run missing_file_environment fresh_system
    [LoaderStep; LoaderStep; LoaderStep; LoaderStep].

(** The wrapper once the loader has stored the empty list and finished *)
Definition list_loaded_system : system :=
  run list_environment fresh_system [LoaderStep; LoaderStep; LoaderStep].

(** ** Vocabulary of the further properties *)

(** The loader thread is over. *)
Definition terminal (pc : loader_pc) : bool :=
  match pc with
  | FinishedReady | FinishedFallback | Died => true
  | _ => false
  end.

(** The number of steps the loader takes in a list of actions *)
Fixpoint loader_steps (acts : list action) : nat :=
  match acts with
  | [] => 0
  | LoaderStep :: rest => S (loader_steps rest)
  | _ :: rest => loader_steps rest
  end.

(** A classifier that answers stage 2, has no [predict_proba], and ranks
    three features with importances that do not sum to 1 *)
Definition ranking_classifier : model :=
  {| type_name := "DecisionTreeClassifier";
     truth := Ok true;
     m_predict := Some (fun _ => Ok 2%Z);
     m_predict_proba := None;
     m_classes_ := Ok [0; 1; 2]%Z;
     m_feature_importances_ := Some [3; 1; 9] |}.

(** The world of a wrapper that has finished loading a given object *)
Definition loaded_world (m : model) : world :=
  with_self (fun s => set_model_loading false
                        (set_model_loaded true (set_model (Some m) s)))
            fresh_world.

(** A record with four features *)
Definition wide_record : PatientRecord :=
  [(creatinine_key, VNum 30); ("Age"%string, VNum 61);
   ("Sexe_M"%string, VNum 1); ("Urée (g/L)"%string, VNum 0.4)].

(** A classifier trained on the stages 1 and 4 only: it answers stage 4
    with the probabilities it gives those two classes. *)
Definition two_class_classifier : model :=
  {| type_name := "LogisticRegression";
     truth := Ok true;
     m_predict := Some (fun _ => Ok 4%Z);
     m_predict_proba := Some (fun _ => Ok [0.3; 0.7]);
     m_classes_ := Ok [1; 4]%Z;
     m_feature_importances_ := None |}.

(** A classifier whose [predict] answers stage 5 and whose
    [predict_proba] raises *)
Definition half_working_classifier : model :=
  {| type_name := "SVC";
     truth := Ok true;
     m_predict := Some (fun _ => Ok 5%Z);
     m_predict_proba := Some (fun _ => Raise AttributeError);
     m_classes_ := Ok [0; 1; 2; 3; 4; 5]%Z;
     m_feature_importances_ := None |}.

(** Where one step takes the loader: the position after the step does
    not depend on the fields of the wrapper. *)
Definition pc_next (env : environment) (pc : loader_pc) : loader_pc :=
  fst (loader_next env pc blank).

(** The dict [_calculate_feature_importance] leaves in the cache, as a
    function of the frame and of the stored object *)
Definition calculated_importance (df : DataFrame) (mdl : option model)
    : list (string * Q) :=
  match mdl ≫= m_feature_importances_ with
  | Some importances =>
      match pair_importances (columns df) importances with
      | Ok raw =>
          match normalise (py_sum (map snd raw)) raw with
          | Ok normalised => normalised
          | Raise _ => fallback_importance df
          end
      | Raise _ => fallback_importance df
      end
  | None => fallback_importance df
  end.

(** What [_fallback_predict] returns and leaves, in closed form *)
Definition fallback_outcome (df : DataFrame) (w : world) : result Z * world :=
  match df_item df creatinine_key with
  | Raise e => (Raise e, w)
  | Ok v =>
      match rule_stage v with
      | Raise e => (Raise e, w)
      | Ok z => (Ok z, after_fallback df z w)
      end
  end.

(** What the body of the [try] of [predict] returns and leaves, in
    closed form *)
Definition try_outcome (input_data : PatientRecord) (w : world)
    : result Z * world :=
  let df := pd_DataFrame input_data in
  let mdl := _model (self w) in
  match mdl ≫= m_predict with
  | None => fallback_outcome df w
  | Some f =>
      match f df with
      | Raise e => (Raise e, w)
      | Ok z =>
          match mdl ≫= m_predict_proba with
          | None =>
              (Ok z,
               {| self := set_feature_importance
                            (Some (calculated_importance df mdl))
                            (set_stage_probabilities
                               (Some (synthetic (rng w (rng_pos w)) z)) (self w));
                  rng := rng w; rng_pos := S (rng_pos w) |})
          | Some g =>
              match g df with
              | Raise e => (Raise e, w)
              | Ok proba =>
                  match from_option m_classes_ (Raise AttributeError) mdl with
                  | Raise e => (Raise e, w)
                  | Ok classes =>
                      match class_probabilities ∅ classes proba with
                      | Raise e => (Raise e, w)
                      | Ok sp =>
                          (Ok z,
                           with_self
                             (fun s => set_feature_importance
                                         (Some (calculated_importance df mdl))
                                         (set_stage_probabilities (Some sp) s))
                             w)
                      end
                  end
              end
          end
      end
  end.

(** The same world with other caches *)
Definition with_caches (sp : option (gmap Z Q))
    (fi : option (list (string * Q))) (w : world) : world :=
  with_self (fun s => set_stage_probabilities sp (set_feature_importance fi s)) w.

(** * Properties *)

Set Warnings "-clear-no-such-hyp".

(** *** The other stages *)

Lemma elem_of_other_stages (s k : Z) :
  k ∈ other_stages s ↔ (0 ≤ k ≤ 5)%Z ∧ k ≠ s.
Proof.
  unfold other_stages. rewrite list_elem_of_filter, elem_of_seqZ. lia.
Qed.

Lemma length_other_stages_in (s : Z) :
  (0 ≤ s ≤ 5)%Z → length (other_stages s) = 5%nat.
Proof.
  intros Hs.
  assert (s = 0 ∨ s = 1 ∨ s = 2 ∨ s = 3 ∨ s = 4 ∨ s = 5)%Z as H by lia.
  destruct H as [->|[->|[->|[->|[->| ->]]]]]; reflexivity.
Qed.

Lemma other_stages_out (s : Z) :
  ¬ (0 ≤ s ≤ 5)%Z → other_stages s = seqZ 0 6.
Proof.
  intros Hs. unfold other_stages.
  change (seqZ 0 6) with [0; 1; 2; 3; 4; 5]%Z.
  rewrite !filter_cons_True by lia. reflexivity.
Qed.

Lemma length_other_stages_out (s : Z) :
  ¬ (0 ≤ s ≤ 5)%Z → length (other_stages s) = 6%nat.
Proof. intros Hs. rewrite other_stages_out by done. reflexivity. Qed.

Lemma py_len_other_stages_nonzero (s : Z) :
  Qeq_bool (py_len (other_stages s)) 0 = false.
Proof.
  unfold py_len.
  destruct (decide (0 ≤ s ≤ 5)%Z) as [Hs|Hs].
  - rewrite length_other_stages_in by done. reflexivity.
  - rewrite length_other_stages_out by done. reflexivity.
Qed.

(** *** Running a method *)

Lemma bind_run {A B} (c : M A) (k : A → M B) (w w' : world) (a : A) :
  c w = (Ok a, w') → bind c k w = k a w'.
Proof. intros H. unfold bind. rewrite H. reflexivity. Qed.

(** *** The synthetic stage probabilities *)

Lemma share_step (n rem : Q) (x : Z) (d : gmap Z Q) (s : LazyIRCModel)
    (g : nat → Q) (p : nat) :
  Qeq_bool n 0 = false →
  (let* share := lift (py_div rem n) in setitem_stage_probabilities x share)
    {| self := set_stage_probabilities (Some d) s; rng := g; rng_pos := p |}
  = (Ok tt,
     {| self := set_stage_probabilities (Some (<[x := rem / n]> d)) s;
        rng := g; rng_pos := p |}).
Proof.
  intros Hn. unfold bind, lift, py_div. rewrite Hn. reflexivity.
Qed.

Lemma for_each_shares (n rem : Q) (xs : list Z) :
  Qeq_bool n 0 = false →
  ∀ (d : gmap Z Q) (s : LazyIRCModel) (g : nat → Q) (p : nat),
    for_each xs (fun stage =>
        let* share := lift (py_div rem n) in
        setitem_stage_probabilities stage share)
      {| self := set_stage_probabilities (Some d) s; rng := g; rng_pos := p |}
    = (Ok tt,
       {| self := set_stage_probabilities
                    (Some (foldl (fun d k => <[k := rem / n]> d) d xs)) s;
          rng := g; rng_pos := p |}).
Proof.
  intros Hn. induction xs as [|x xs IH]; intros d s g p.
  - reflexivity.
  - cbn [for_each foldl].
    erewrite bind_run by (apply share_step; exact Hn).
    apply IH.
Qed.

Lemma generate_fallback_probabilities_run (s : Z) (w : world) :
  _generate_fallback_probabilities s w
  = (Ok tt,
     {| self := set_stage_probabilities
                  (Some (synthetic (rng w (rng_pos w)) s)) (self w);
        rng := rng w; rng_pos := S (rng_pos w) |}).
Proof.
  exact (for_each_shares (py_len (other_stages s))
           (1.0 - (0.75 + rng w (rng_pos w) * 0.2)) (other_stages s)
           (py_len_other_stages_nonzero s)
           (<[s := 0.75 + rng w (rng_pos w) * 0.2]>
              (list_to_map [(0%Z, 0.0); (1%Z, 0.0); (2%Z, 0.0);
                            (3%Z, 0.0); (4%Z, 0.0); (5%Z, 0.0)]))
           (self w) (rng w) (S (rng_pos w))).
Qed.

Lemma lookup_foldl_insert (v : Q) (xs : list Z) :
  ∀ (d : gmap Z Q) (j : Z),
    foldl (fun d k => <[k := v]> d) d xs !! j
    = if decide (j ∈ xs) then Some v else d !! j.
Proof.
  induction xs as [|x xs IH]; intros d j; cbn [foldl].
  - rewrite decide_False by apply not_elem_of_nil. reflexivity.
  - rewrite IH. destruct (decide (j ∈ xs)) as [Hin|Hout].
    + rewrite decide_True by (right; exact Hin). reflexivity.
    + destruct (decide (j = x)) as [->|Hne].
      * rewrite decide_True by left. apply lookup_insert_eq.
      * rewrite decide_False by (rewrite elem_of_cons; tauto).
        apply lookup_insert_ne. congruence.
Qed.

Lemma lookup_blank_probabilities (j : Z) :
  ¬ (0 ≤ j ≤ 5)%Z →
  (list_to_map [(0%Z, 0.0); (1%Z, 0.0); (2%Z, 0.0);
                (3%Z, 0.0); (4%Z, 0.0); (5%Z, 0.0)] : gmap Z Q) !! j = None.
Proof.
  intros Hj. apply not_elem_of_list_to_map_1. cbn. set_solver by lia.
Qed.

Lemma synthetic_lookup_predicted (r : Q) (s : Z) :
  synthetic r s !! s = Some (0.75 + r * 0.2).
Proof.
  unfold synthetic. rewrite lookup_foldl_insert.
  rewrite decide_False by (rewrite elem_of_other_stages; tauto).
  apply lookup_insert_eq.
Qed.

Lemma synthetic_lookup_other (r : Q) (s k : Z) :
  (0 ≤ k ≤ 5)%Z → k ≠ s →
  synthetic r s !! k
  = Some ((1.0 - (0.75 + r * 0.2)) / py_len (other_stages s)).
Proof.
  intros Hk Hne. unfold synthetic. rewrite lookup_foldl_insert.
  rewrite decide_True by (rewrite elem_of_other_stages; tauto). reflexivity.
Qed.

Lemma synthetic_lookup_outside (r : Q) (s k : Z) :
  ¬ (0 ≤ k ≤ 5)%Z → k ≠ s → synthetic r s !! k = None.
Proof.
  intros Hk Hne. unfold synthetic. rewrite lookup_foldl_insert.
  rewrite decide_False by (rewrite elem_of_other_stages; tauto).
  rewrite lookup_insert_ne by congruence.
  apply lookup_blank_probabilities, Hk.
Qed.

Lemma elem_of_stages (k : Z) : k ∈ stages ↔ (0 ≤ k ≤ 5)%Z.
Proof. unfold stages. rewrite !elem_of_union, !elem_of_singleton. lia. Qed.

Lemma stages_range : stages = list_to_set (seqZ 0 6).
Proof.
  apply set_eq. intros k.
  rewrite elem_of_stages, elem_of_list_to_set, elem_of_seqZ. lia.
Qed.

Lemma synthetic_dom (r : Q) (s : Z) : dom (synthetic r s) = stages ∪ {[s]}.
Proof.
  apply set_eq. intros k.
  rewrite elem_of_dom, elem_of_union, elem_of_stages, elem_of_singleton.
  destruct (decide (k = s)) as [->|Hne].
  - rewrite synthetic_lookup_predicted. split; [tauto | eauto].
  - destruct (decide (0 ≤ k ≤ 5)%Z) as [Hk|Hk].
    + rewrite synthetic_lookup_other by done. split; [tauto | eauto].
    + rewrite synthetic_lookup_outside by done.
      split; [intros [? ?]; discriminate | tauto].
Qed.

Lemma synthetic_dom_in (r : Q) (s : Z) :
  (0 ≤ s ≤ 5)%Z → dom (synthetic r s) = stages.
Proof.
  intros Hs. rewrite synthetic_dom.
  apply elem_of_stages in Hs. set_solver.
Qed.

(** *** Sums over a mapping *)

Lemma sum_values_insert (d : gmap Z Q) (k : Z) (v : Q) :
  d !! k = None → sum_values (<[k := v]> d) == v + sum_values d.
Proof.
  intros Hk. unfold sum_values.
  apply (map_fold_insert Qeq (fun _ v acc => v + acc)).
  - intros j z a b Hab. rewrite Hab. reflexivity.
  - intros. ring.
  - exact Hk.
Qed.

Lemma sum_values_empty : sum_values ∅ = 0.
Proof. unfold sum_values. apply map_fold_empty. Qed.

(** The sum of a mapping, key by key along a list of its keys *)
Lemma sum_values_along (keys : list Z) :
  NoDup keys →
  ∀ d : gmap Z Q,
    dom d = list_to_set keys →
    sum_values d == foldr (fun k acc => default 0 (d !! k) + acc) 0 keys.
Proof.
  induction 1 as [|k keys Hk Hnd IH]; intros d Hdom.
  - cbn in Hdom. apply dom_empty_inv_L in Hdom. subst d.
    rewrite sum_values_empty. reflexivity.
  - assert (is_Some (d !! k)) as [v Hv]
      by (apply elem_of_dom; rewrite Hdom; set_solver).
    rewrite <- (insert_delete_id d k v Hv) at 1.
    rewrite sum_values_insert by apply lookup_delete_eq.
    cbn [foldr]. rewrite Hv. cbn [default from_option].
    rewrite (IH (delete k d)).
    + apply Qplus_comp; [reflexivity|].
      clear IH Hdom Hv. induction keys as [|j keys IHk]; [reflexivity|].
      cbn [foldr]. rewrite lookup_delete_ne by set_solver.
      apply Qplus_comp; [reflexivity|].
      apply IHk; [set_solver | by inversion Hnd].
    + rewrite dom_delete_L, Hdom. set_solver.
Qed.

Lemma NoDup_seqZ_0_6 : NoDup (seqZ 0 6).
Proof. apply NoDup_seqZ. Qed.

Lemma synthetic_sum_in (r : Q) (s : Z) :
  (0 ≤ s ≤ 5)%Z → sum_values (synthetic r s) == 1.
Proof.
  intros Hs.
  rewrite (sum_values_along (seqZ 0 6) NoDup_seqZ_0_6)
    by (rewrite <- stages_range; apply synthetic_dom_in, Hs).
  change (seqZ 0 6) with [0; 1; 2; 3; 4; 5]%Z. cbn [foldr].
  assert (s = 0 ∨ s = 1 ∨ s = 2 ∨ s = 3 ∨ s = 4 ∨ s = 5)%Z as H by lia.
  destruct H as [->|[->|[->|[->|[->| ->]]]]];
    rewrite synthetic_lookup_predicted, !synthetic_lookup_other by lia;
    cbn [default from_option]; unfold py_len;
    rewrite length_other_stages_in by lia;
    change (inject_Z (Z.of_nat 5)) with 5; unfold id; field.
Qed.

Lemma synthetic_sum_out (r : Q) (s : Z) :
  ¬ (0 ≤ s ≤ 5)%Z → sum_values (synthetic r s) == 1.
Proof.
  intros Hs.
  rewrite (sum_values_along (s :: seqZ 0 6)).
  - change (seqZ 0 6) with [0; 1; 2; 3; 4; 5]%Z. cbn [foldr].
    rewrite synthetic_lookup_predicted, !synthetic_lookup_other by lia.
    cbn [default from_option]. unfold py_len.
    rewrite length_other_stages_out by done.
    change (inject_Z (Z.of_nat 6)) with 6. unfold id. field.
  - constructor; [rewrite elem_of_seqZ; lia | apply NoDup_seqZ_0_6].
  - rewrite synthetic_dom, stages_range. set_solver.
Qed.

(** *** Feature importance *)

Lemma foldl_Qplus (xs : list Q) :
  ∀ a : Q, foldl Qplus a xs == a + py_sum xs.
Proof.
  unfold py_sum. induction xs as [|x xs IH]; intros a; cbn [foldl].
  - ring.
  - rewrite (IH (a + x)), (IH (0 + x)). ring.
Qed.

Lemma py_sum_cons (x : Q) (xs : list Q) : py_sum (x :: xs) == x + py_sum xs.
Proof. unfold py_sum at 1. cbn [foldl]. rewrite foldl_Qplus. ring. Qed.

Lemma py_sum_nonneg (xs : list Q) :
  Forall (fun v => 0 < v) xs → 0 <= py_sum xs.
Proof.
  induction 1 as [|x xs Hx _ IH]; [unfold py_sum; cbn; lra|].
  rewrite py_sum_cons. lra.
Qed.

Lemma py_sum_pos (xs : list Q) :
  Forall (fun v => 0 < v) xs → xs ≠ [] → 0 < py_sum xs.
Proof.
  intros Hall Hne. destruct Hall as [|x xs Hx Hxs]; [done|].
  rewrite py_sum_cons. pose proof (py_sum_nonneg xs Hxs). lra.
Qed.

Lemma Qeq_bool_pos (q : Q) : 0 < q → Qeq_bool q 0 = false.
Proof.
  intros Hq. destruct (Qeq_bool q 0) eqn:E; [|reflexivity].
  apply Qeq_bool_eq in E. lra.
Qed.

Lemma priority_weights_positive : Forall (fun kv => 0 < snd kv) priority_table.
Proof. unfold priority_table. repeat constructor. Qed.

Lemma priority_names_distinct : NoDup (map fst priority_table).
Proof. apply (bool_decide_unpack _). vm_compute. reflexivity. Qed.

Lemma kept_weights_positive (df : DataFrame) :
  Forall (fun v => 0 < v) (map snd (kept_features df)).
Proof.
  apply Forall_fmap, Forall_forall. intros kv Hkv.
  unfold kept_features in Hkv. apply list_elem_of_filter in Hkv as [_ Hkv].
  pose proof priority_weights_positive as Hall.
  rewrite Forall_forall in Hall. apply (Hall kv Hkv).
Qed.

Lemma kept_names_distinct (df : DataFrame) : NoDup (map fst (kept_features df)).
Proof.
  assert (map fst (kept_features df) `sublist_of` map fst priority_table) as Hsub
    by (unfold kept_features; apply (fmap_sublist fst), sublist_filter).
  exact (sublist_NoDup _ _ priority_names_distinct Hsub).
Qed.

Lemma normalise_nil (total : Q) : normalise total [] = Ok [].
Proof. reflexivity. Qed.

Lemma normalise_nonzero (total : Q) (d : list (string * Q)) :
  Qeq_bool total 0 = false →
  normalise total d = Ok (map (fun kv => (fst kv, snd kv / total)) d).
Proof.
  intros Ht. unfold normalise.
  induction d as [|kv d IH]; [reflexivity|].
  cbn [comprehension map]. unfold py_div at 1. rewrite Ht, IH. reflexivity.
Qed.

Lemma normalise_kept (df : DataFrame) :
  normalise (py_sum (map snd (kept_features df))) (kept_features df)
  = Ok (fallback_importance df).
Proof.
  unfold fallback_importance.
  destruct (kept_features df) as [|kv d] eqn:E; [reflexivity|].
  apply normalise_nonzero, Qeq_bool_pos, py_sum_pos.
  - rewrite <- E. apply kept_weights_positive.
  - discriminate.
Qed.

Lemma generate_fallback_feature_importance_run (df : DataFrame) (w : world) :
  _generate_fallback_feature_importance df w
  = (Ok tt, with_self (set_feature_importance (Some (fallback_importance df))) w).
Proof.
  unfold _generate_fallback_feature_importance.
  fold (kept_features df).
  unfold bind, write, lift. rewrite normalise_kept. reflexivity.
Qed.

Lemma py_sum_normalised (total : Q) (d : list (string * Q)) :
  ¬ total == 0 →
  py_sum (map snd (map (fun kv => (fst kv, snd kv / total)) d))
  == py_sum (map snd d) / total.
Proof.
  intros Ht. induction d as [|kv d IH].
  - unfold py_sum. cbn. field. exact Ht.
  - cbn [map]. rewrite !py_sum_cons, IH. cbn [snd]. field. exact Ht.
Qed.

Lemma fallback_importance_sum (df : DataFrame) :
  fallback_importance df ≠ [] →
  py_sum (map snd (fallback_importance df)) == 1.
Proof.
  intros Hne. unfold fallback_importance in *.
  assert (0 < py_sum (map snd (kept_features df))) as Hpos.
  { apply py_sum_pos; [apply kept_weights_positive|].
    destruct (kept_features df); [done | discriminate]. }
  rewrite py_sum_normalised by lra. field. lra.
Qed.

Lemma fallback_importance_names (df : DataFrame) :
  map fst (fallback_importance df) = map fst (kept_features df).
Proof.
  unfold fallback_importance. rewrite map_map. reflexivity.
Qed.

Lemma elem_of_kept_names (df : DataFrame) (k : string) :
  k ∈ map fst (kept_features df)
  ↔ k ∈ map fst priority_table ∧ k ∈ columns df.
Proof.
  unfold kept_features. rewrite !list_elem_of_fmap. split.
  - intros [kv [-> Hkv]]. apply list_elem_of_filter in Hkv as [Hc Hkv].
    split; [exists kv; done | exact Hc].
  - intros [[kv [-> Hkv]] Hc]. exists kv. split; [done|].
    apply list_elem_of_filter. done.
Qed.

(** *** The rule-based predictor *)

Lemma fallback_predict_missing (df : DataFrame) (w : world) (e : exn) :
  df_item df creatinine_key = Raise e →
  _fallback_predict df w = (Raise e, w).
Proof.
  intros H. unfold _fallback_predict, bind, lift. rewrite H. reflexivity.
Qed.

Lemma fallback_predict_unordered (df : DataFrame) (w : world) (v : value) (e : exn) :
  df_item df creatinine_key = Ok v → rule_stage v = Raise e →
  _fallback_predict df w = (Raise e, w).
Proof.
  intros H Hv. unfold _fallback_predict, bind, lift. rewrite H.
  destruct v; try discriminate; cbn in *; congruence.
Qed.

Lemma fallback_predict_ok (df : DataFrame) (w : world) (v : value) (z : Z) :
  df_item df creatinine_key = Ok v → rule_stage v = Ok z →
  _fallback_predict df w = (Ok z, after_fallback df z w).
Proof.
  intros H Hv. unfold _fallback_predict, bind, lift. rewrite H.
  destruct v as [c| |s|x y rest]; cbn [py_gt rule_stage] in *;
    [| |discriminate|discriminate].
  - injection Hv as <-.
    destruct (Qle_bool c 200); cbn [negb];
      [destruct (Qle_bool c 100); cbn [negb];
        [destruct (Qle_bool c 50); cbn [negb];
          [destruct (Qle_bool c 20); cbn [negb];
            [destruct (Qle_bool c 15); cbn [negb]|]|]|]|];
      cbn [ret]; rewrite generate_fallback_probabilities_run,
        generate_fallback_feature_importance_run; reflexivity.
  - injection Hv as <-. cbn [ret].
    rewrite generate_fallback_probabilities_run,
      generate_fallback_feature_importance_run. reflexivity.
Qed.

Lemma rule_stage_range (v : value) (z : Z) :
  rule_stage v = Ok z → (0 ≤ z ≤ 5)%Z.
Proof.
  destruct v as [c| |s|x y rest]; cbn; intros H; [| |discriminate|discriminate];
    injection H as <-; [|lia].
  repeat (match goal with |- context [Qle_bool ?a ?b] => destruct (Qle_bool a b) end;
          cbn [negb]); lia.
Qed.


Lemma Qle_bool_false (a b : Q) : Qle_bool a b = false ↔ b < a.
Proof.
  destruct (Qle_bool a b) eqn:E.
  - apply Qle_bool_iff in E. split; [discriminate | intros; lra].
  - split; [intros _|reflexivity].
    apply Qnot_le_lt. intros Hle. apply Qle_bool_iff in Hle. congruence.
Qed.

Lemma rule_stage_table (c : Q) :
  ∃ z, rule_stage (VNum c) = Ok z
    ∧ (200 < c → z = 5%Z)
    ∧ (100 < c ∧ c <= 200 → z = 4%Z)
    ∧ (50 < c ∧ c <= 100 → z = 3%Z)
    ∧ (20 < c ∧ c <= 50 → z = 2%Z)
    ∧ (15 < c ∧ c <= 20 → z = 1%Z)
    ∧ (c <= 15 → z = 0%Z).
Proof.
  eexists. split; [reflexivity|].
  destruct (Qle_bool c 200) eqn:E200; [apply Qle_bool_iff in E200 | apply Qle_bool_false in E200];
  destruct (Qle_bool c 100) eqn:E100; [apply Qle_bool_iff in E100 | apply Qle_bool_false in E100 | apply Qle_bool_iff in E100 | apply Qle_bool_false in E100];
  destruct (Qle_bool c 50) eqn:E50; try apply Qle_bool_iff in E50; try apply Qle_bool_false in E50;
  destruct (Qle_bool c 20) eqn:E20; try apply Qle_bool_iff in E20; try apply Qle_bool_false in E20;
  destruct (Qle_bool c 15) eqn:E15; try apply Qle_bool_iff in E15; try apply Qle_bool_false in E15;
  cbn [negb]; repeat split; intros; try reflexivity; exfalso; lra.
Qed.

(** *** Looking a column up *)

Lemma df_item_absent (df : DataFrame) (name : string) :
  name ∉ columns df → df_item df name = Raise KeyError.
Proof.
  induction df as [|[k v] df IH]; intros Hn; [reflexivity|].
  cbn [df_item]. cbn in Hn. apply not_elem_of_cons in Hn as [Hne Hn].
  destruct (String.eqb_spec k name); [congruence | apply IH, Hn].
Qed.

Lemma df_item_present (df : DataFrame) (name : string) (v : value) :
  NoDup (columns df) → (name, v) ∈ df → df_item df name = Ok v.
Proof.
  induction df as [|[k x] df IH]; intros Hnd Hin; [by apply elem_of_nil in Hin|].
  cbn [df_item]. cbn in Hnd. apply NoDup_cons in Hnd as [Hk Hnd].
  apply elem_of_cons in Hin as [Heq|Hin].
  - injection Heq as <- <-. rewrite String.eqb_refl. reflexivity.
  - destruct (String.eqb_spec k name) as [->|Hne]; [|apply IH; done].
    exfalso. apply Hk. apply list_elem_of_fmap. exists (name, v). done.
Qed.

(** *** The importance of the features of a loaded classifier *)

Lemma calculate_feature_importance_run (df : DataFrame) (w : world) :
  ∃ fi, _calculate_feature_importance df w
        = (Ok tt, with_self (set_feature_importance (Some fi)) w).
Proof.
  unfold _calculate_feature_importance, try_except, bind at 1, read.
  destruct (_model (self w) ≫= m_feature_importances_) as [importances|].
  - unfold bind, lift, write.
    destruct (pair_importances (columns df) importances) as [raw|e].
    + destruct (normalise (py_sum (map snd raw)) raw) as [normalised|e].
      * exists normalised. reflexivity.
      * rewrite generate_fallback_feature_importance_run. eauto.
    + rewrite generate_fallback_feature_importance_run. eauto.
  - rewrite !generate_fallback_feature_importance_run. eauto.
Qed.

(** *** The body of the [try] of [predict] *)

Lemma fallback_predict_returns (df : DataFrame) (w w' : world) (z : Z) :
  _fallback_predict df w = (Ok z, w') →
  ∃ v, df_item df creatinine_key = Ok v ∧ rule_stage v = Ok z
       ∧ w' = after_fallback df z w.
Proof.
  intros H.
  destruct (df_item df creatinine_key) as [v|e] eqn:Hitem.
  - destruct (rule_stage v) as [z'|e] eqn:Hv.
    + rewrite (fallback_predict_ok _ _ _ _ Hitem Hv) in H.
      injection H as <- <-. eauto.
    + rewrite (fallback_predict_unordered _ _ _ _ Hitem Hv) in H. discriminate.
  - rewrite (fallback_predict_missing _ _ _ Hitem) in H. discriminate.
Qed.

Lemma predict_try_returns (input_data : PatientRecord) (w w' : world) (z : Z) :
  predict_try input_data w = (Ok z, w') →
  stage_origin (pd_DataFrame input_data) w z
  ∧ probabilities_origin (pd_DataFrame input_data) w z
      (_stage_probabilities (self w')).
Proof.
  unfold predict_try, bind at 1, read.
  destruct (_model (self w)) as [m|] eqn:Hm; cbn [mbind option_bind].
  2:{ intros H. apply fallback_predict_returns in H as (v & Hitem & Hv & ->).
      split; [eapply stage_rule; eauto | apply origin_synthetic]. }
  destruct (m_predict m) as [f|] eqn:Hf.
  2:{ intros H. apply fallback_predict_returns in H as (v & Hitem & Hv & ->).
      split; [eapply stage_rule; eauto | apply origin_synthetic]. }
  unfold bind at 1, lift at 1.
  destruct (f (pd_DataFrame input_data)) as [stage|e] eqn:Hstage; [|discriminate].
  destruct (m_predict_proba m) as [g|] eqn:Hg.
  - unfold bind at 1. unfold bind at 1, lift at 1.
    destruct (g (pd_DataFrame input_data)) as [proba|e] eqn:Hproba; [|discriminate].
    unfold bind at 1, lift at 1. cbn [from_option].
    destruct (m_classes_ m) as [classes|e] eqn:Hclasses; [|discriminate].
    unfold bind at 1, lift at 1.
    destruct (class_probabilities ∅ classes proba) as [sp|e] eqn:Hsp; [|discriminate].
    unfold write at 1. unfold bind at 1.
    match goal with |- context [_calculate_feature_importance ?d ?x] =>
      destruct (calculate_feature_importance_run d x) as [fi Hfi] end.
    rewrite Hfi. cbn [ret]. intros H. injection H as <- <-.
    split; [eapply stage_model; eauto | eapply origin_model; eauto].
  - unfold bind at 1. rewrite generate_fallback_probabilities_run.
    unfold bind at 1.
    match goal with |- context [_calculate_feature_importance ?d ?x] =>
      destruct (calculate_feature_importance_run d x) as [fi Hfi] end.
    rewrite Hfi. cbn [ret]. intros H. injection H as <- <-.
    split; [eapply stage_model; eauto | apply origin_synthetic].
Qed.

Lemma predict_returns (input_data : PatientRecord) (w w' : world) (z : Z) :
  predict input_data w = (Ok z, w') →
  stage_origin (pd_DataFrame input_data) w z
  ∧ probabilities_origin (pd_DataFrame input_data) w z
      (_stage_probabilities (self w')).
Proof.
  unfold predict, bind at 1, read.
  destruct (_model_loaded (self w)); cbn [negb].
  - unfold try_except.
    destruct (predict_try input_data w) as [[z'|e] w1] eqn:Htry.
    + intros H. injection H as <- <-. apply (predict_try_returns _ _ _ _ Htry).
    + intros H. apply fallback_predict_returns in H as (v & Hitem & Hv & ->).
      split; [eapply stage_rule; eauto | apply origin_synthetic].
  - intros H. apply fallback_predict_returns in H as (v & Hitem & Hv & ->).
    split; [eapply stage_rule; eauto | apply origin_synthetic].
Qed.

(** *** What the methods leave untouched *)

Lemma same_handle_refl (s : LazyIRCModel) : same_handle s s.
Proof. repeat split. Qed.

Lemma same_handle_trans (s1 s2 s3 : LazyIRCModel) :
  same_handle s1 s2 → same_handle s2 s3 → same_handle s1 s3.
Proof. unfold same_handle. intros (?&?&?) (?&?&?). repeat split; congruence. Qed.

Lemma keeps_ret {A} (a : A) : keeps_handle (ret a).
Proof. intros w. apply same_handle_refl. Qed.

Lemma keeps_lift {A} (r : result A) : keeps_handle (lift r).
Proof. intros w. apply same_handle_refl. Qed.

Lemma keeps_read {A} (f : LazyIRCModel → A) : keeps_handle (read f).
Proof. intros w. apply same_handle_refl. Qed.

Lemma keeps_random : keeps_handle np_random_random.
Proof. intros w. apply same_handle_refl. Qed.

Lemma keeps_write_probabilities (sp : option (gmap Z Q)) :
  keeps_handle (write (set_stage_probabilities sp)).
Proof. intros w. repeat split. Qed.

Lemma keeps_write_importance (fi : option (list (string * Q))) :
  keeps_handle (write (set_feature_importance fi)).
Proof. intros w. repeat split. Qed.

Lemma keeps_bind {A B} (c : M A) (k : A → M B) :
  keeps_handle c → (∀ a, keeps_handle (k a)) → keeps_handle (bind c k).
Proof.
  intros Hc Hk w. unfold bind. specialize (Hc w).
  destruct (c w) as [[a|e] w1]; cbn [snd] in *; [|exact Hc].
  eapply same_handle_trans; [exact Hc | apply Hk].
Qed.

Lemma keeps_try {A} (c : M A) (h : exn → M A) :
  keeps_handle c → (∀ e, keeps_handle (h e)) → keeps_handle (try_except c h).
Proof.
  intros Hc Hh w. unfold try_except. specialize (Hc w).
  destruct (c w) as [[a|e] w1]; cbn [snd] in *; [exact Hc|].
  eapply same_handle_trans; [exact Hc | apply Hh].
Qed.

Lemma keeps_for_each {A} (xs : list A) (body : A → M unit) :
  (∀ x, keeps_handle (body x)) → keeps_handle (for_each xs body).
Proof.
  intros Hb. induction xs as [|x xs IH]; cbn [for_each].
  - apply keeps_ret.
  - apply keeps_bind; [apply Hb | intros _; exact IH].
Qed.

Create HintDb frame.
#[local] Hint Resolve keeps_ret keeps_lift keeps_read keeps_random
  keeps_write_probabilities keeps_write_importance : frame.

Ltac frame :=
  repeat first
    [ progress intros
    | solve [auto with frame]
    | apply keeps_bind
    | apply keeps_try
    | apply keeps_for_each
    | match goal with
      | |- keeps_handle (match ?x with _ => _ end) => destruct x
      end ].

Lemma keeps_setitem (k : Z) (v : Q) :
  keeps_handle (setitem_stage_probabilities k v).
Proof. unfold setitem_stage_probabilities. frame. Qed.
#[local] Hint Resolve keeps_setitem : frame.

Lemma keeps_generate_fallback_probabilities (s : Z) :
  keeps_handle (_generate_fallback_probabilities s).
Proof. unfold _generate_fallback_probabilities. frame. Qed.
#[local] Hint Resolve keeps_generate_fallback_probabilities : frame.

Lemma keeps_generate_fallback_feature_importance (df : DataFrame) :
  keeps_handle (_generate_fallback_feature_importance df).
Proof. unfold _generate_fallback_feature_importance. frame. Qed.
#[local] Hint Resolve keeps_generate_fallback_feature_importance : frame.

Lemma keeps_fallback_predict (df : DataFrame) :
  keeps_handle (_fallback_predict df).
Proof. unfold _fallback_predict. frame. Qed.
#[local] Hint Resolve keeps_fallback_predict : frame.

Lemma keeps_calculate_feature_importance (df : DataFrame) :
  keeps_handle (_calculate_feature_importance df).
Proof. unfold _calculate_feature_importance. frame. Qed.
#[local] Hint Resolve keeps_calculate_feature_importance : frame.

Lemma keeps_predict_try (input_data : PatientRecord) :
  keeps_handle (predict_try input_data).
Proof. unfold predict_try. frame. Qed.
#[local] Hint Resolve keeps_predict_try : frame.

Lemma keeps_predict (input_data : PatientRecord) :
  keeps_handle (predict input_data).
Proof. unfold predict. frame. Qed.

(** The accessors only read. *)

Lemma is_model_ready_read_only : read_only is_model_ready.
Proof. intros w. reflexivity. Qed.

Lemma get_stage_probabilities_read_only : read_only get_stage_probabilities.
Proof.
  intros w. unfold get_stage_probabilities, bind, read.
  destruct (_stage_probabilities (self w)) as [d|]; [|reflexivity].
  destruct (bool_decide (d = ∅)); reflexivity.
Qed.

Lemma get_feature_importance_read_only : read_only get_feature_importance.
Proof.
  intros w. unfold get_feature_importance, bind, read.
  destruct (_feature_importance (self w)) as [[|kv d]|]; reflexivity.
Qed.

Lemma get_status_read_only : read_only get_status.
Proof.
  intros w. unfold get_status, bind, read, lift.
  destruct (_model (self w)) as [m|]; [|reflexivity].
  destruct (truth m) as [[|]|e]; reflexivity.
Qed.

Lemma get_stage_probabilities_cached (w : world) (d : gmap Z Q) :
  _stage_probabilities (self w) = Some d →
  get_stage_probabilities w = (Ok d, w).
Proof.
  intros H. unfold get_stage_probabilities, bind, read. rewrite H.
  destruct (bool_decide (d = ∅)) eqn:E; [|reflexivity].
  apply bool_decide_eq_true in E. subst d. reflexivity.
Qed.

Lemma get_stage_probabilities_unset (w : world) :
  _stage_probabilities (self w) = None →
  get_stage_probabilities w = (Ok ∅, w).
Proof.
  intros H. unfold get_stage_probabilities, bind, read. rewrite H. reflexivity.
Qed.

Lemma get_feature_importance_unset (w : world) :
  _feature_importance (self w) = None →
  get_feature_importance w = (Ok [], w).
Proof.
  intros H. unfold get_feature_importance, bind, read. rewrite H. reflexivity.
Qed.

(** *** The loader and the readiness flag *)

Lemma loader_inv_construct (env : environment) (draws : nat → Q) (pos : nat) :
  loader_inv env (construct draws pos).
Proof. repeat split. Qed.

Lemma loader_inv_handle (env : environment) (w w' : world) (pc : loader_pc) :
  same_handle (self w) (self w') →
  loader_inv env {| sys_world := w; sys_pc := pc |} →
  loader_inv env {| sys_world := w'; sys_pc := pc |}.
Proof.
  unfold loader_inv. cbn. intros (Hm & Hl & Hd) (Hpc & Hm' & Hl' & Hd').
  repeat split; congruence.
Qed.

Lemma loader_inv_step (env : environment) (sys : system) (a : action) :
  loader_inv env sys → loader_inv env (sys_step env sys a).
Proof.
  destruct sys as [w pc]. intros Hinv. destruct a; cbn [sys_step sys_world sys_pc].
  - destruct Hinv as (Hpc & Hm & Hl & Hd). cbn in Hpc, Hm, Hl, Hd.
    unfold loader_inv.
    destruct pc; cbn [loader_next]; cbn in Hpc, Hm, Hl, Hd;
      destruct (pickle_load env) eqn:Ep;
      destruct (RandomForestClassifier env) eqn:Er;
      cbn in *; repeat split; rewrite ?Ep, ?Er;
      solve [done | tauto | congruence | intuition congruence].
  - eapply loader_inv_handle; [apply keeps_predict | exact Hinv].
  - rewrite is_model_ready_read_only. exact Hinv.
  - rewrite get_stage_probabilities_read_only. exact Hinv.
  - rewrite get_feature_importance_read_only. exact Hinv.
  - rewrite get_status_read_only. exact Hinv.
Qed.

Lemma loader_inv_run (env : environment) (acts : list action) :
  ∀ sys, loader_inv env sys → loader_inv env (run env sys acts).
Proof.
  unfold run. induction acts as [|a acts IH]; intros sys Hinv; [exact Hinv|].
  cbn [foldl]. apply IH, loader_inv_step, Hinv.
Qed.

Lemma ready_step (env : environment) (sys : system) (a : action) :
  ready sys = true → ready (sys_step env sys a) = true.
Proof.
  destruct sys as [w pc]. unfold ready. cbn [sys_world].
  destruct a; cbn [sys_step sys_world sys_pc].
  - destruct pc; cbn [loader_next];
      try (destruct (pickle_load env));
      try (destruct (RandomForestClassifier env)); cbn; done.
  - intros H. destruct (keeps_predict input_data w) as (_ & _ & Hd). congruence.
  - rewrite is_model_ready_read_only. done.
  - rewrite get_stage_probabilities_read_only. done.
  - rewrite get_feature_importance_read_only. done.
  - rewrite get_status_read_only. done.
Qed.

Lemma ready_run (env : environment) (acts : list action) :
  ∀ sys, ready sys = true → ready (run env sys acts) = true.
Proof.
  unfold run. induction acts as [|a acts IH]; intros sys H; [exact H|].
  cbn [foldl]. apply IH, ready_step, H.
Qed.

Lemma trace_head (env : environment) (sys : system) (acts : list action) :
  ∃ rest, trace env sys acts = sys :: rest.
Proof. destruct acts; cbn; eauto. Qed.

Lemma flips_cons (a b : system) (rest : list system) :
  flips (a :: b :: rest)
  = ((if negb (ready a) && ready b then 1 else 0) + flips (b :: rest))%nat.
Proof. reflexivity. Qed.

Lemma flips_bound (env : environment) (acts : list action) :
  ∀ sys, (flips (trace env sys acts) ≤ if ready sys then 0 else 1)%nat.
Proof.
  induction acts as [|a acts IH]; intros sys.
  - cbn. destruct (ready sys); lia.
  - cbn [trace]. specialize (IH (sys_step env sys a)).
    destruct (trace_head env (sys_step env sys a) acts) as [rest Hrest].
    rewrite Hrest in *. rewrite flips_cons.
    destruct (ready sys) eqn:Hr.
    + rewrite (ready_step env sys a Hr) in *. cbn [negb andb]. lia.
    + destruct (ready (sys_step env sys a)); cbn [negb andb]; lia.
Qed.

Lemma run_app (env : environment) (sys : system) (acts more : list action) :
  run env sys (acts ++ more) = run env (run env sys acts) more.
Proof. unfold run. apply foldl_app. Qed.

(** *** The scenarios of the specification, evaluated *)

Example threshold_scenarios :
  map (fun c => fst (_fallback_predict [(creatinine_key, VNum c)] fresh_world))
      [250; 150; 75; 25; 16; 10; 200]
  = [Ok 5; Ok 4; Ok 3; Ok 2; Ok 1; Ok 0; Ok 4]%Z.
Proof. vm_compute. reflexivity. Qed.

Example nan_creatinine_is_stage_0 :
  fst (predict [(creatinine_key, VNaN)] fresh_world) = Ok 0%Z.
Proof. vm_compute. reflexivity. Qed.

Example text_creatinine_raises :
  fst (predict [(creatinine_key, VStr "high")] fresh_world) = Raise TypeError.
Proof. vm_compute. reflexivity. Qed.

Example importance_of_boundary_record :
  fst (get_feature_importance (snd (predict boundary_record fresh_world)))
  = Ok [(creatinine_key, 350000 # 500000); ("Age"%string, 150000 # 500000)].
Proof. vm_compute. reflexivity. Qed.

(** Without the model file and without scikit-learn the loader dies, the
    wrapper never becomes ready, and [predict] still answers. *)
Example bare_environment_run :
  let sys := run bare_environment fresh_system
               [LoaderStep; LoaderStep; LoaderStep; CallPredict boundary_record] in
  sys_pc sys = Died
  ∧ fst (is_model_ready (sys_world sys)) = Ok false
  ∧ fst (predict boundary_record (sys_world sys)) = Ok 4%Z.
Proof. vm_compute. repeat split. Qed.

(** A loaded classifier answers for itself, and its classes are cached. *)
Example classifier_environment_run :
  let sys := run classifier_environment fresh_system
               [LoaderStep; LoaderStep; LoaderStep] in
  sys_pc sys = FinishedReady
  ∧ fst (predict boundary_record (sys_world sys)) = Ok 3%Z
  ∧ fst (get_status (sys_world sys))
    = Ok {| model_loaded := true; model_loading := false;
            model_type := "DummyClassifier" |}.
Proof. vm_compute. repeat split. Qed.

(** An array for a creatinine has no truth value at the first comparison. *)
Example array_creatinine_raises :
  fst (predict [(creatinine_key, VArray 10 250 [])] fresh_world)
  = Raise ValueError.
Proof. vm_compute. reflexivity. Qed.

(** With the model file missing the wrapper becomes ready on an unfitted
    forest, whose [predict] raises: the answer is the rule-based one. *)
Example fallback_loaded_predict :
  fst (is_model_ready (sys_world fallback_loaded_system)) = Ok true
  ∧ fst (predict boundary_record (sys_world fallback_loaded_system)) = Ok 4%Z.
Proof. vm_compute. split; reflexivity. Qed.

(** * The claims of the specification *)

(** ** Rule-based prediction *)

(** C2.  For every record that holds the feature "Créatinine (mg/L)" with
    a numeric value [c], the rule-based predictor returns the stage of
    the ordered threshold table: 5 above 200, 4 above 100, 3 above 50,
    2 above 20, 1 above 15 and 0 otherwise.  The first true comparison
    wins and every bound is exclusive: at exactly 200 the stage is 4. *)
Theorem fallback_predict_threshold_table
    (input_data : PatientRecord) (w : world) (c : Q) :
  well_formed input_data →
  (creatinine_key, VNum c) ∈ input_data →
  ∃ z w',
    _fallback_predict (pd_DataFrame input_data) w = (Ok z, w')
    ∧ (200 < c → z = 5%Z)
    ∧ (100 < c ∧ c <= 200 → z = 4%Z)
    ∧ (50 < c ∧ c <= 100 → z = 3%Z)
    ∧ (20 < c ∧ c <= 50 → z = 2%Z)
    ∧ (15 < c ∧ c <= 20 → z = 1%Z)
    ∧ (c <= 15 → z = 0%Z)
    ∧ (c == 200 → z = 4%Z).
Proof.
  intros Hwf Hin.
  pose proof (df_item_present (pd_DataFrame input_data) _ _ Hwf Hin) as Hitem.
  destruct (rule_stage_table c) as (z & Hz & H5 & H4 & H3 & H2 & H1 & H0).
  exists z, (after_fallback (pd_DataFrame input_data) z w).
  split; [apply (fallback_predict_ok _ _ _ _ Hitem Hz)|].
  repeat split; try assumption.
  intros Hc. apply H4. lra.
Qed.

Lemma fallback_predict_threshold_table_witness :
  ∃ z w',
    _fallback_predict (pd_DataFrame boundary_record) fresh_world = (Ok z, w')
    ∧ (200 < 200 → z = 5%Z)
    ∧ (100 < 200 ∧ 200 <= 200 → z = 4%Z)
    ∧ (50 < 200 ∧ 200 <= 100 → z = 3%Z)
    ∧ (20 < 200 ∧ 200 <= 50 → z = 2%Z)
    ∧ (15 < 200 ∧ 200 <= 20 → z = 1%Z)
    ∧ (200 <= 15 → z = 0%Z)
    ∧ (200 == 200 → z = 4%Z).
Proof.
  apply (fallback_predict_threshold_table boundary_record fresh_world 200).
  - apply (bool_decide_unpack _). vm_compute. reflexivity.
  - unfold boundary_record. left.
Defined.

(** ** Synthetic probabilities *)

(** C3.  For every predicted stage [s] in 0..5 and every draw [r] in
    [0, 1), the fallback probability generator stores a mapping whose
    domain is exactly {0, ..., 5}, which gives [s] the confidence
    0.75 + 0.2 r, a value in [0.75, 0.95), and gives each of the other
    five stages (1 - confidence) / 5. *)
Theorem fallback_probabilities_in_range (s : Z) (w : world) :
  (0 ≤ s ≤ 5)%Z →
  0 <= rng w (rng_pos w) →
  rng w (rng_pos w) < 1 →
  ∃ d confidence w',
    _generate_fallback_probabilities s w = (Ok tt, w')
    ∧ _stage_probabilities (self w') = Some d
    ∧ dom d = stages
    ∧ d !! s = Some confidence
    ∧ confidence == confidence_of (rng w (rng_pos w))
    ∧ 0.75 <= confidence ∧ confidence < 0.95
    ∧ ∀ k, (0 ≤ k ≤ 5)%Z → k ≠ s →
        ∃ share, d !! k = Some share ∧ share == (1 - confidence) / 5.
Proof.
  intros Hs Hr0 Hr1.
  eexists _, _, _. split; [apply generate_fallback_probabilities_run|].
  cbn [self _stage_probabilities set_stage_probabilities].
  split; [reflexivity|].
  split; [apply synthetic_dom_in, Hs|].
  split; [apply synthetic_lookup_predicted|].
  unfold confidence_of.
  split; [ring|]. split; [lra|]. split; [lra|].
  intros k Hk Hne. eexists. split; [apply synthetic_lookup_other; done|].
  unfold py_len. rewrite length_other_stages_in by done.
  change (inject_Z (Z.of_nat 5)) with 5. field.
Qed.

Lemma fallback_probabilities_in_range_witness :
  ∃ d confidence w',
    _generate_fallback_probabilities 4 fresh_world = (Ok tt, w')
    ∧ _stage_probabilities (self w') = Some d
    ∧ dom d = stages
    ∧ d !! 4%Z = Some confidence
    ∧ confidence == confidence_of (rng fresh_world (rng_pos fresh_world))
    ∧ 0.75 <= confidence ∧ confidence < 0.95
    ∧ ∀ k, (0 ≤ k ≤ 5)%Z → k ≠ 4%Z →
        ∃ share, d !! k = Some share ∧ share == (1 - confidence) / 5.
Proof.
  apply (fallback_probabilities_in_range 4 fresh_world).
  - lia.
  - vm_compute. discriminate.
  - vm_compute. reflexivity.
Defined.

(** C10.  For every stage [s] outside 0..5, the generator stores a
    mapping with seven keys, 0 to 5 and [s]: [s] receives the confidence
    and each of the six stages 0..5 receives (1 - confidence) / 6.  The
    values still sum to 1, but the domain is not {0, ..., 5}. *)
Theorem fallback_probabilities_out_of_range (s : Z) (w : world) :
  ¬ (0 ≤ s ≤ 5)%Z →
  ∃ d confidence w',
    _generate_fallback_probabilities s w = (Ok tt, w')
    ∧ _stage_probabilities (self w') = Some d
    ∧ dom d = stages ∪ {[s]}
    ∧ size d = 7%nat
    ∧ dom d ≠ stages
    ∧ d !! s = Some confidence
    ∧ confidence == confidence_of (rng w (rng_pos w))
    ∧ (∀ k, (0 ≤ k ≤ 5)%Z →
         ∃ share, d !! k = Some share ∧ share == (1 - confidence) / 6)
    ∧ sum_values d == 1.
Proof.
  intros Hs.
  eexists _, _, _. split; [apply generate_fallback_probabilities_run|].
  cbn [self _stage_probabilities set_stage_probabilities].
  split; [reflexivity|].
  split; [apply synthetic_dom|].
  split.
  { rewrite <- size_dom, synthetic_dom, size_union.
    - rewrite size_singleton, stages_range, size_list_to_set by apply NoDup_seqZ.
      reflexivity.
    - intros k Hk Hk'. apply elem_of_singleton in Hk' as ->.
      apply elem_of_stages in Hk. contradiction. }
  split.
  { rewrite synthetic_dom. intros Heq.
    assert (s ∈ stages) as Hin by (rewrite <- Heq; set_solver).
    apply elem_of_stages in Hin. contradiction. }
  split; [apply synthetic_lookup_predicted|].
  unfold confidence_of.
  split; [ring|].
  split; [|apply synthetic_sum_out, Hs].
  intros k Hk. eexists. split.
  - apply synthetic_lookup_other; [done | intros ->; contradiction].
  - unfold py_len. rewrite length_other_stages_out by done.
    change (inject_Z (Z.of_nat 6)) with 6. field.
Qed.

Lemma fallback_probabilities_out_of_range_witness :
  ∃ d confidence w',
    _generate_fallback_probabilities 7 fresh_world = (Ok tt, w')
    ∧ _stage_probabilities (self w') = Some d
    ∧ dom d = stages ∪ {[7%Z]}
    ∧ size d = 7%nat
    ∧ dom d ≠ stages
    ∧ d !! 7%Z = Some confidence
    ∧ confidence == confidence_of (rng fresh_world (rng_pos fresh_world))
    ∧ (∀ k, (0 ≤ k ≤ 5)%Z →
         ∃ share, d !! k = Some share ∧ share == (1 - confidence) / 6)
    ∧ sum_values d == 1.
Proof.
  apply (fallback_probabilities_out_of_range 7 fresh_world). lia.
Defined.

(** ** Synthetic feature importance *)

(** C5.  For every input record, the fallback feature-importance
    generator stores a mapping whose keys are exactly the names of the
    eleven-entry priority table that are also feature names of the
    record, each with its table weight divided by the sum of the
    surviving weights, so that the stored weights sum to 1.  When the
    record has none of the prioritized names the stored mapping is empty.
    No error is raised in either case, a division by zero included. *)
Theorem fallback_feature_importance_spec (df : DataFrame) (w : world) :
  length priority_table = 11%nat
  ∧ ∃ fi w',
      _generate_fallback_feature_importance df w = (Ok tt, w')
      ∧ _feature_importance (self w') = Some fi
      ∧ NoDup (map fst fi)
      ∧ (∀ k, k ∈ map fst fi ↔ k ∈ map fst priority_table ∧ k ∈ columns df)
      ∧ (∀ k v, (k, v) ∈ fi →
           ∃ weight, (k, weight) ∈ priority_table
             ∧ v == weight / py_sum (map snd (kept_features df)))
      ∧ (fi ≠ [] → py_sum (map snd fi) == 1)
      ∧ ((∀ k, k ∈ map fst priority_table → k ∉ columns df) → fi = []).
Proof.
  split; [reflexivity|].
  exists (fallback_importance df), (with_self (set_feature_importance (Some (fallback_importance df))) w).
  split; [apply generate_fallback_feature_importance_run|].
  split; [reflexivity|].
  split; [rewrite fallback_importance_names; apply kept_names_distinct|].
  split; [intros k; rewrite fallback_importance_names; apply elem_of_kept_names|].
  split.
  { intros k v Hin. unfold fallback_importance in Hin.
    apply list_elem_of_fmap in Hin as ([k' weight] & Heq & Hkept).
    cbn [fst snd] in Heq. injection Heq as -> ->.
    exists weight. split; [|reflexivity].
    unfold kept_features in Hkept. apply list_elem_of_filter in Hkept. tauto. }
  split; [apply fallback_importance_sum|].
  intros Hnone. unfold fallback_importance.
  destruct (kept_features df) as [|[k v] kept] eqn:E; [reflexivity|].
  exfalso.
  assert (k ∈ map fst (kept_features df)) as Hk by (rewrite E; left).
  apply elem_of_kept_names in Hk as [Hk Hc]. apply (Hnone k Hk Hc).
Qed.

(** ** Prediction as a whole *)


Lemma predict_fallback_route (input_data : PatientRecord) (w : world) :
  routes_to_fallback input_data w →
  ∃ w1, predict input_data w = _fallback_predict (pd_DataFrame input_data) w1.
Proof.
  intros Hroute. unfold predict, bind at 1, read.
  destruct (_model_loaded (self w)) eqn:Hloaded; cbn [negb]; [|eauto].
  unfold try_except.
  destruct Hroute as [Hfalse|[Hnone|[e He]]]; [congruence| |].
  - assert (predict_try input_data w
            = _fallback_predict (pd_DataFrame input_data) w) as Htry.
    { unfold predict_try, bind at 1, read. rewrite Hnone. reflexivity. }
    rewrite Htry.
    destruct (_fallback_predict (pd_DataFrame input_data) w)
      as [[z|e] w1] eqn:Hfb; [eauto|].
    eexists. reflexivity.
  - destruct (predict_try input_data w) as [[z|e'] w1]; [discriminate|].
    eexists. reflexivity.
Qed.




(** C9.  For every record without the key "Créatinine (mg/L)", a call of
    [predict] that takes the rule-based path (the wrapper is not ready,
    the stored object has no [predict], or the real-model path raised)
    raises [KeyError] to its caller and returns no stage. *)
Theorem fallback_route_raises_keyerror
    (input_data : PatientRecord) (w : world) :
  creatinine_key ∉ columns (pd_DataFrame input_data) →
  routes_to_fallback input_data w →
  fst (predict input_data w) = Raise KeyError.
Proof.
  intros Habsent Hroute.
  destruct (predict_fallback_route _ _ Hroute) as [w1 ->].
  rewrite (fallback_predict_missing _ _ KeyError); [reflexivity|].
  apply df_item_absent, Habsent.
Qed.

Lemma fallback_route_raises_keyerror_witness :
  fst (predict age_only_record fresh_world) = Raise KeyError.
Proof.
  apply (fallback_route_raises_keyerror age_only_record fresh_world).
  - apply (bool_decide_unpack _). vm_compute. reflexivity.
  - left. reflexivity.
Defined.

(** ** The cached stage probabilities *)

Lemma within_tolerance (q : Q) : q == 1 → Qabs (q - 1) <= 0.000001.
Proof.
  intros Hq. assert (q - 1 == 0) as H0 by lra.
  rewrite H0. vm_compute. discriminate.
Qed.

(** C4, as the code has it.  After every call of [predict] that returns
    a stage [z], [get_stage_probabilities] returns either the mapping
    built from the loaded classifier's own [predict_proba] and
    [classes_], or a synthetic mapping.  The synthetic mapping has the
    key set {0, ..., 5} together with [z], which is exactly {0, ..., 5}
    when [z] is a stage, and its values sum to 1. *)
Theorem stage_probabilities_after_predict
    (input_data : PatientRecord) (w w' : world) (z : Z) :
  predict input_data w = (Ok z, w') →
  ∃ d,
    get_stage_probabilities w' = (Ok d, w')
    ∧ ((dom d = stages ∪ {[z]}
        ∧ ((0 ≤ z ≤ 5)%Z → dom d = stages)
        ∧ Qabs (sum_values d - 1) <= 0.000001)
       ∨ (∃ m f proba classes,
            _model (self w) = Some m
            ∧ m_predict_proba m = Some f
            ∧ f (pd_DataFrame input_data) = Ok proba
            ∧ m_classes_ m = Ok classes
            ∧ class_probabilities ∅ classes proba = Ok d)).
Proof.
  intros Hp. destruct (predict_returns _ _ _ _ Hp) as [_ Horigin].
  inversion Horigin as [r Hsp | m f proba classes sp Hm Hf Hproba Hclasses Hcp Hsp];
    symmetry in Hsp.
  - exists (synthetic r z). split; [apply get_stage_probabilities_cached, Hsp|].
    left. split; [apply synthetic_dom|].
    split; [apply synthetic_dom_in|].
    apply within_tolerance.
    destruct (decide (0 ≤ z ≤ 5)%Z);
      [apply synthetic_sum_in | apply synthetic_sum_out]; done.
  - exists sp. split; [apply get_stage_probabilities_cached, Hsp|].
    right. exists m, f, proba, classes. done.
Qed.

Lemma stage_probabilities_after_predict_witness :
  ∃ d,
    get_stage_probabilities (snd (predict boundary_record fresh_world))
    = (Ok d, snd (predict boundary_record fresh_world))
    ∧ ((dom d = stages ∪ {[4%Z]}
        ∧ ((0 ≤ 4 ≤ 5)%Z → dom d = stages)
        ∧ Qabs (sum_values d - 1) <= 0.000001)
       ∨ (∃ m f proba classes,
            _model (self fresh_world) = Some m
            ∧ m_predict_proba m = Some f
            ∧ f (pd_DataFrame boundary_record) = Ok proba
            ∧ m_classes_ m = Ok classes
            ∧ class_probabilities ∅ classes proba = Ok d)).
Proof.
  apply (stage_probabilities_after_predict boundary_record fresh_world
           (snd (predict boundary_record fresh_world)) 4).
  rewrite (surjective_pairing (predict boundary_record fresh_world)) at 1.
  f_equal; vm_compute; reflexivity.
Defined.

(** C4, as the specification words it, fails twice.  A call that raises
    leaves the cache as it was, here unset, so that the accessor answers
    the empty mapping; and a call answered by a loaded classifier caches
    the classes of that classifier, here the single class 3. *)
Lemma stage_probabilities_not_always_six :
  (¬ ∃ d, fst (get_stage_probabilities
                 (snd (predict age_only_record fresh_world))) = Ok d
          ∧ dom d = stages ∧ Qabs (sum_values d - 1) <= 0.000001)
  ∧ (¬ ∃ d, fst (get_stage_probabilities
                   (snd (predict boundary_record
                           (sys_world (run classifier_environment fresh_system
                                         [LoaderStep; LoaderStep; LoaderStep])))))
            = Ok d
            ∧ dom d = stages ∧ Qabs (sum_values d - 1) <= 0.000001).
Proof.
  split.
  - assert (fst (get_stage_probabilities
                   (snd (predict age_only_record fresh_world))) = Ok ∅) as H
      by (vm_compute; reflexivity).
    intros (d & Hd & Hdom & _). rewrite H in Hd. injection Hd as <-.
    rewrite dom_empty_L in Hdom.
    assert (0%Z ∈ stages) as Hin by (apply elem_of_stages; lia).
    rewrite <- Hdom in Hin. by apply not_elem_of_empty in Hin.
  - assert (fst (get_stage_probabilities
                   (snd (predict boundary_record
                           (sys_world (run classifier_environment fresh_system
                                         [LoaderStep; LoaderStep; LoaderStep])))))
            = Ok {[3%Z := 1.0]}) as H
      by (vm_compute; reflexivity).
    intros (d & Hd & Hdom & _). rewrite H in Hd. injection Hd as <-.
    rewrite dom_singleton_L in Hdom.
    assert (0%Z ∈ stages) as Hin by (apply elem_of_stages; lia).
    rewrite <- Hdom in Hin. apply elem_of_singleton in Hin. discriminate.
Qed.

(** ** Readiness *)

(** C6.  [is_model_ready] answers false in every state reached before
    the loader completes, the state right after construction included.
    It answers true exactly when the loader has passed the write of the
    flag, which it does either after storing the unpickled classifier
    (ready) or, the unpickling having failed, after storing the fallback
    classifier it built (fallback).  Along any run the flag is raised at
    most once, and once raised it stays raised. *)
Theorem readiness_lifecycle
    (env : environment) (draws : nat → Q) (pos : nat) (acts more : list action) :
  let start := construct draws pos in
  let sys := run env start acts in
  fst (is_model_ready (sys_world start)) = Ok false
  ∧ fst (is_model_ready (sys_world sys)) = Ok (load_completed (sys_pc sys))
  ∧ (load_completed (sys_pc sys) = true ↔
       ∃ m, _model (self (sys_world sys)) = Some m
            ∧ ((pickle_load env = Ok m
                ∧ (sys_pc sys = LoadedSet ∨ sys_pc sys = FinishedReady))
               ∨ (is_ok (pickle_load env) = false
                  ∧ RandomForestClassifier env = Ok m
                  ∧ sys_pc sys = FinishedFallback)))
  ∧ (flips (trace env start acts) ≤ 1)%nat
  ∧ (ready sys = true → ready (run env sys more) = true).
Proof.
  intros start sys.
  pose proof (loader_inv_run env acts start (loader_inv_construct env draws pos))
    as (Hpc & Hm & _ & Hd).
  fold sys in Hpc, Hm, Hd.
  split; [reflexivity|].
  split; [unfold is_model_ready, read; cbn [fst]; rewrite Hd; reflexivity|].
  split; [|split].
  - rewrite Hm. clear Hm Hd. split.
    + intros Hdone.
      destruct (sys_pc sys); try discriminate; cbn in Hpc |- *.
      * destruct (pickle_load env) as [m|e]; [|discriminate]. eauto 10.
      * destruct (pickle_load env) as [m|e]; [|discriminate]. eauto 10.
      * destruct Hpc as [Hp Hr].
        destruct (RandomForestClassifier env) as [m|e]; [|discriminate]. eauto 10.
    + intros (m & _ & [(_ & [->| ->])|(_ & _ & ->)]); reflexivity.
  - pose proof (flips_bound env acts start) as H.
    destruct (ready start); lia.
  - apply ready_run.
Qed.

(** ** The accessors *)

Lemma caches_unset_step (env : environment) (sys : system) (a : action) :
  is_predict_call a = false →
  _stage_probabilities (self (sys_world sys)) = None
  ∧ _feature_importance (self (sys_world sys)) = None →
  _stage_probabilities (self (sys_world (sys_step env sys a))) = None
  ∧ _feature_importance (self (sys_world (sys_step env sys a))) = None.
Proof.
  destruct sys as [w pc]. intros Ha H. destruct a; try discriminate;
    cbn [sys_step sys_world sys_pc] in *.
  - destruct pc; cbn [loader_next];
      try (destruct (pickle_load env));
      try (destruct (RandomForestClassifier env)); exact H.
  - rewrite is_model_ready_read_only. exact H.
  - rewrite get_stage_probabilities_read_only. exact H.
  - rewrite get_feature_importance_read_only. exact H.
  - rewrite get_status_read_only. exact H.
Qed.

Lemma caches_unset_run (env : environment) (acts : list action) :
  forallb (fun a => negb (is_predict_call a)) acts = true →
  ∀ sys,
    _stage_probabilities (self (sys_world sys)) = None
    ∧ _feature_importance (self (sys_world sys)) = None →
    _stage_probabilities (self (sys_world (run env sys acts))) = None
    ∧ _feature_importance (self (sys_world (run env sys acts))) = None.
Proof.
  unfold run. induction acts as [|a acts IH]; intros Hacts sys H; [exact H|].
  cbn [forallb] in Hacts. apply andb_true_iff in Hacts as [Ha Hacts].
  cbn [foldl]. apply (IH Hacts), caches_unset_step; [|exact H].
  by apply negb_true_iff.
Qed.

(** Before any call of [predict] the two cache accessors return the
    empty mapping: only [predict] writes the caches. *)
Lemma caches_empty_before_predict
    (env : environment) (draws : nat → Q) (pos : nat) (acts : list action) :
  forallb (fun a => negb (is_predict_call a)) acts = true →
  let before := sys_world (run env (construct draws pos) acts) in
  get_stage_probabilities before = (Ok ∅, before)
  ∧ get_feature_importance before = (Ok [], before).
Proof.
  intros Hacts before.
  destruct (caches_unset_run env acts Hacts (construct draws pos)) as [Hsp Hfi];
    [split; reflexivity|].
  split; [apply get_stage_probabilities_unset, Hsp
         | apply get_feature_importance_unset, Hfi].
Qed.

(** What [get_status] computes: the two flags as they are, and a type
    that hangs on the truth value of the stored object. *)
Lemma get_status_snapshot (w : world) :
  get_status w
  = match _model (self w) with
    | None =>
        (Ok {| model_loaded := _model_loaded (self w);
               model_loading := _model_loading (self w);
               model_type := "None" |}, w)
    | Some m =>
        match truth m with
        | Ok truthy =>
            (Ok {| model_loaded := _model_loaded (self w);
                   model_loading := _model_loading (self w);
                   model_type := if truthy then type_name m else "None" |}, w)
        | Raise e => (Raise e, w)
        end
    end.
Proof.
  unfold get_status, bind, read, lift.
  destruct (_model (self w)) as [m|]; [|reflexivity].
  destruct (truth m) as [[|]|e]; reflexivity.
Qed.

(** C7.  The claim has [get_status] return, at every state, a record
    whose [model_type] is the type name of the stored object, or "None"
    when no object is stored.  Line 228 tests the truth value of the
    stored object where a test against [None] is meant, and the code
    breaks the claim on objects its own loader stores.  With the model
    file missing, the loader stores the unfitted random forest of line
    58 and sets the flag: the wrapper is ready, and [get_status] raises
    [AttributeError] instead of returning a record.  With a model file
    that holds an empty list, an object of type [list] is stored and
    [get_status] reports the type "None".  (The other half of the claim,
    empty caches before any [predict], holds.) *)
Theorem get_status_fails_on_stored_objects :
  (sys_pc fallback_loaded_system = FinishedFallback
   ∧ fst (is_model_ready (sys_world fallback_loaded_system)) = Ok true
   ∧ _model (self (sys_world fallback_loaded_system)) = Some unfitted_forest
   ∧ get_status (sys_world fallback_loaded_system)
     = (Raise AttributeError, sys_world fallback_loaded_system))
  ∧ (sys_pc list_loaded_system = FinishedReady
     ∧ _model (self (sys_world list_loaded_system)) = Some empty_list_object
     ∧ type_name empty_list_object = "list"%string
     ∧ fst (get_status (sys_world list_loaded_system))
       = Ok {| model_loaded := true; model_loading := false;
               model_type := "None" |}).
Proof.
  split.
  - split; [reflexivity|]. split; [reflexivity|]. split; [reflexivity|].
    rewrite get_status_snapshot. reflexivity.
  - split; [reflexivity|]. split; [reflexivity|]. split; [reflexivity|].
    rewrite get_status_snapshot. reflexivity.
Qed.

(** C8.  Two calls of [get_status] from the same state, with nothing in
    between, give identical results: the call reads the state and leaves
    it as it was. *)
Theorem get_status_repeatable (w : world) :
  let first := get_status w in
  let second := get_status (snd first) in
  snd first = w ∧ snd second = w ∧ fst second = fst first.
Proof.
  cbn zeta. rewrite !get_status_read_only. repeat split; reflexivity.
Qed.

(** * Further properties of the code *)

(** ** What a raising [predict] leaves behind *)

Lemma df_item_raises (df : DataFrame) (name : string) (e : exn) :
  df_item df name = Raise e → e = KeyError ∧ name ∉ columns df.
Proof.
  induction df as [|[k v] df IH]; cbn [df_item].
  - intros H. injection H as <-. split; [reflexivity | apply not_elem_of_nil].
  - destruct (String.eqb_spec k name) as [->|Hne]; [discriminate|].
    intros H. destruct (IH H) as [-> Hout]. split; [reflexivity|].
    cbn. apply not_elem_of_cons. split; [congruence | exact Hout].
Qed.

Lemma rule_stage_raises (v : value) (e : exn) :
  rule_stage v = Raise e → py_gt v 200 = Raise e.
Proof.
  destruct v as [c| |s|x y rest]; cbn; intros H; try discriminate;
    injection H as <-; reflexivity.
Qed.

Lemma fallback_predict_raises (df : DataFrame) (w w' : world) (e : exn) :
  _fallback_predict df w = (Raise e, w') →
  w' = w
  ∧ ((e = KeyError ∧ creatinine_key ∉ columns df)
     ∨ (∃ v, df_item df creatinine_key = Ok v ∧ py_gt v 200 = Raise e)).
Proof.
  intros H.
  destruct (df_item df creatinine_key) as [v|e0] eqn:Hitem.
  - destruct (rule_stage v) as [z|e0] eqn:Hv.
    + rewrite (fallback_predict_ok _ _ _ _ Hitem Hv) in H. discriminate.
    + rewrite (fallback_predict_unordered _ _ _ _ Hitem Hv) in H.
      injection H as <- <-. split; [reflexivity|]. right.
      exists v. split; [reflexivity | apply rule_stage_raises, Hv].
  - rewrite (fallback_predict_missing _ _ _ Hitem) in H.
    injection H as <- <-. split; [reflexivity|]. left.
    apply (df_item_raises _ _ _ Hitem).
Qed.

Lemma predict_try_raises (input_data : PatientRecord) (w w' : world) (e : exn) :
  predict_try input_data w = (Raise e, w') → w' = w.
Proof.
  unfold predict_try, bind at 1, read.
  destruct (_model (self w)) as [m|]; cbn [mbind option_bind].
  2:{ intros H. apply fallback_predict_raises in H. tauto. }
  destruct (m_predict m) as [f|].
  2:{ intros H. apply fallback_predict_raises in H. tauto. }
  unfold bind at 1, lift at 1.
  destruct (f (pd_DataFrame input_data)) as [stage|e0];
    [|intros H; injection H as _ <-; reflexivity].
  destruct (m_predict_proba m) as [g|].
  - unfold bind at 1. unfold bind at 1, lift at 1.
    destruct (g (pd_DataFrame input_data)) as [proba|e0];
      [|intros H; injection H as _ <-; reflexivity].
    unfold bind at 1, lift at 1. cbn [from_option].
    destruct (m_classes_ m) as [classes|e0];
      [|intros H; injection H as _ <-; reflexivity].
    unfold bind at 1, lift at 1.
    destruct (class_probabilities ∅ classes proba) as [sp|e0];
      [|intros H; injection H as _ <-; reflexivity].
    unfold write at 1. unfold bind at 1.
    match goal with |- context [_calculate_feature_importance ?d ?x] =>
      destruct (calculate_feature_importance_run d x) as [fi Hfi] end.
    rewrite Hfi. cbn [ret]. discriminate.
  - unfold bind at 1. rewrite generate_fallback_probabilities_run.
    unfold bind at 1.
    match goal with |- context [_calculate_feature_importance ?d ?x] =>
      destruct (calculate_feature_importance_run d x) as [fi Hfi] end.
    rewrite Hfi. cbn [ret]. discriminate.
Qed.

Lemma raising_predict_changes_nothing
    (input_data : PatientRecord) (w w' : world) (e : exn) :
  predict input_data w = (Raise e, w') → w' = w.
Proof.
  unfold predict, bind at 1, read.
  destruct (_model_loaded (self w)); cbn [negb].
  - unfold try_except.
    destruct (predict_try input_data w) as [[z|e0] w1] eqn:Htry; [discriminate|].
    apply predict_try_raises in Htry as ->.
    intros H. apply fallback_predict_raises in H. tauto.
  - intros H. apply fallback_predict_raises in H. tauto.
Qed.

(** X1.  When [predict] raises, the wrapper and the random generator are
    exactly as they were before the call: the caches keep the result of
    the previous call.  The exception comes from the rule-based path
    alone: it is the [KeyError] of the lookup of a missing creatinine
    column (line 113), or what the first comparison of the creatinine
    cell raises (line 115).  No exception raised inside the [try], by the
    classifier or by the wrapper, reaches the caller. *)
Theorem predict_raise_leaves_state
    (input_data : PatientRecord) (w w' : world) (e : exn) :
  predict input_data w = (Raise e, w') →
  w' = w
  ∧ ((e = KeyError ∧ creatinine_key ∉ columns (pd_DataFrame input_data))
     ∨ (∃ v, df_item (pd_DataFrame input_data) creatinine_key = Ok v
             ∧ py_gt v 200 = Raise e)).
Proof.
  unfold predict, bind at 1, read.
  destruct (_model_loaded (self w)); cbn [negb].
  - unfold try_except.
    destruct (predict_try input_data w) as [[z|e0] w1] eqn:Htry; [discriminate|].
    apply predict_try_raises in Htry as ->.
    apply fallback_predict_raises.
  - apply fallback_predict_raises.
Qed.

Lemma predict_raise_leaves_state_witness :
  snd (predict age_only_record fresh_world) = fresh_world
  ∧ ((KeyError = KeyError
      ∧ creatinine_key ∉ columns (pd_DataFrame age_only_record))
     ∨ (∃ v, df_item (pd_DataFrame age_only_record) creatinine_key = Ok v
             ∧ py_gt v 200 = Raise KeyError)).
Proof.
  apply (predict_raise_leaves_state age_only_record fresh_world _ KeyError).
  rewrite (surjective_pairing (predict age_only_record fresh_world)) at 1.
  f_equal; vm_compute; reflexivity.
Defined.

(** ** The importance of the features of a loaded classifier *)

Lemma comprehension_ok {A B} (f : A → result B) (xs : list A) (ys : list B) :
  Forall2 (fun x y => f x = Ok y) xs ys → comprehension f xs = Ok ys.
Proof.
  induction 1 as [|x y xs ys Hxy _ IH]; [reflexivity|].
  cbn [comprehension]. rewrite Hxy, IH. reflexivity.
Qed.

Lemma comprehension_raises {A B} (f : A → result B) (xs : list A) (x : A) :
  x ∈ xs → is_ok (f x) = false → is_ok (comprehension f xs) = false.
Proof.
  induction xs as [|y xs IH]; intros Hin Hx; [by apply elem_of_nil in Hin|].
  cbn [comprehension].
  destruct (f y) as [b|e] eqn:Hy; [|reflexivity].
  apply elem_of_cons in Hin as [->|Hin]; [rewrite Hy in Hx; discriminate|].
  specialize (IH Hin Hx).
  destruct (comprehension f xs); [discriminate | reflexivity].
Qed.

Lemma pair_importances_ok (names : list string) (importances : list Q) :
  (length names ≤ length importances)%nat →
  pair_importances names importances = Ok (zip names importances).
Proof.
  intros Hlen. unfold pair_importances. apply comprehension_ok.
  apply Forall2_same_length_lookup. split.
  - rewrite length_seq, length_zip. lia.
  - intros i j [k v] Hj Hkv.
    apply lookup_seq in Hj as [-> Hi]. cbn [Nat.add].
    apply lookup_zip_Some in Hkv as [Hk Hv]. rewrite Hk, Hv. reflexivity.
Qed.

Lemma pair_importances_short (names : list string) (importances : list Q) :
  (length importances < length names)%nat →
  is_ok (pair_importances names importances) = false.
Proof.
  intros Hlen. unfold pair_importances.
  apply (comprehension_raises _ _ (length importances)).
  - apply elem_of_seq. lia.
  - rewrite (lookup_ge_None_2 importances) by lia.
    destruct (names !! length importances); reflexivity.
Qed.

Lemma Qeq_bool_false_neq (q : Q) : Qeq_bool q 0 = false → ¬ q == 0.
Proof. intros H Hq. apply Qeq_eq_bool in Hq. congruence. Qed.

Lemma Qeq_bool_neq_false (q : Q) : ¬ q == 0 → Qeq_bool q 0 = false.
Proof.
  intros H. destruct (Qeq_bool q 0) eqn:E; [|reflexivity].
  apply Qeq_bool_eq in E. contradiction.
Qed.

Lemma normalise_zero (total : Q) (d : list (string * Q)) :
  Qeq_bool total 0 = true → d ≠ [] → normalise total d = Raise ZeroDivisionError.
Proof.
  intros Ht Hd. destruct d as [|kv d]; [done|].
  unfold normalise. cbn [comprehension]. unfold py_div. rewrite Ht. reflexivity.
Qed.

(** X2.  When the loaded classifier has [feature_importances_] with at
    least one entry per column of the record, and the entries that are
    used do not sum to zero, [_calculate_feature_importance] raises
    nothing, changes no field but the importance cache, and caches one
    weight per column, in the order of the columns: the classifier's
    importance of that column divided by the sum of the used entries.
    The cached weights sum to 1 and the surplus entries are ignored. *)
Theorem calculate_feature_importance_of_classifier
    (df : DataFrame) (w : world) (m : model) (importances : list Q) :
  _model (self w) = Some m →
  m_feature_importances_ m = Some importances →
  (length (columns df) ≤ length importances)%nat →
  ¬ py_sum (take (length (columns df)) importances) == 0 →
  ∃ fi,
    _calculate_feature_importance df w
    = (Ok tt, with_self (set_feature_importance (Some fi)) w)
    ∧ map fst fi = columns df
    ∧ map snd fi
      = map (fun x => x / py_sum (take (length (columns df)) importances))
            (take (length (columns df)) importances)
    ∧ (df ≠ [] → py_sum (map snd fi) == 1).
Proof.
  intros Hm Himp Hlen Htotal.
  set (used := take (length (columns df)) importances) in *.
  assert (map snd (zip (columns df) importances) = used) as Hsnd.
  { unfold used. rewrite <- (snd_zip (columns df) (take (length (columns df)) importances))
      by (rewrite length_take; lia).
    rewrite zip_with_take_r by lia. reflexivity. }
  assert (map fst (zip (columns df) importances) = columns df) as Hfst
    by (apply fst_zip, Hlen).
  exists (map (fun kv => (fst kv, snd kv / py_sum used)) (zip (columns df) importances)).
  split; [|split; [|split]].
  - unfold _calculate_feature_importance, try_except, bind at 1, read.
    rewrite Hm. cbn [mbind option_bind]. rewrite Himp.
    unfold bind, lift, write.
    rewrite (pair_importances_ok _ _ Hlen), Hsnd.
    rewrite (normalise_nonzero _ _ (Qeq_bool_neq_false _ Htotal)).
    reflexivity.
  - rewrite map_map. cbn [fst]. exact Hfst.
  - rewrite map_map. cbn [snd]. rewrite <- Hsnd, map_map. reflexivity.
  - intros _. rewrite py_sum_normalised by exact Htotal.
    rewrite Hsnd. field. exact Htotal.
Qed.

Lemma calculate_feature_importance_of_classifier_witness :
  ∃ fi,
    _calculate_feature_importance boundary_record (loaded_world ranking_classifier)
    = (Ok tt, with_self (set_feature_importance (Some fi))
                (loaded_world ranking_classifier))
    ∧ map fst fi = columns boundary_record
    ∧ map snd fi
      = map (fun x => x / py_sum (take (length (columns boundary_record)) [3; 1; 9]))
            (take (length (columns boundary_record)) [3; 1; 9])
    ∧ (boundary_record ≠ [] → py_sum (map snd fi) == 1).
Proof.
  apply (calculate_feature_importance_of_classifier boundary_record
           (loaded_world ranking_classifier) ranking_classifier [3; 1; 9]).
  - reflexivity.
  - reflexivity.
  - vm_compute. lia.
  - vm_compute. discriminate.
Defined.

(** X3.  [_calculate_feature_importance] falls back on the synthetic
    importance of the priority table, and raises nothing, in each of
    these cases: nothing is stored, the stored object has no
    [feature_importances_], it has fewer importances than the record has
    columns (an [IndexError] inside the [try]), or the importances that
    are used sum to zero while the record has a column (a
    [ZeroDivisionError] inside the [try]).  The half-built mapping of
    the failed attempt does not survive. *)
Theorem calculate_feature_importance_falls_back (df : DataFrame) (w : world) :
  _model (self w) ≫= m_feature_importances_ = None
  ∨ (∃ importances,
       _model (self w) ≫= m_feature_importances_ = Some importances
       ∧ ((length importances < length (columns df))%nat
          ∨ ((length (columns df) ≤ length importances)%nat
             ∧ df ≠ []
             ∧ py_sum (take (length (columns df)) importances) == 0))) →
  _calculate_feature_importance df w
  = (Ok tt, with_self (set_feature_importance (Some (fallback_importance df))) w).
Proof.
  intros Hcase.
  unfold _calculate_feature_importance, try_except, bind at 1, read.
  destruct Hcase as [Hnone|(importances & Hsome & Hbad)].
  - rewrite Hnone. rewrite !generate_fallback_feature_importance_run. reflexivity.
  - rewrite Hsome. unfold bind, lift, write.
    destruct Hbad as [Hshort|(Hlen & Hdf & Hzero)].
    + pose proof (pair_importances_short _ _ Hshort) as Hraise.
      destruct (pair_importances (columns df) importances); [discriminate|].
      rewrite generate_fallback_feature_importance_run. reflexivity.
    + rewrite (pair_importances_ok _ _ Hlen).
      assert (map snd (zip (columns df) importances)
              = take (length (columns df)) importances) as Hsnd.
      { rewrite <- (snd_zip (columns df) (take (length (columns df)) importances))
          by (rewrite length_take; lia).
        rewrite zip_with_take_r by lia. reflexivity. }
      rewrite Hsnd, normalise_zero.
      * rewrite generate_fallback_feature_importance_run. reflexivity.
      * apply Qeq_eq_bool, Hzero.
      * destruct df as [|[k v] df]; [done|].
        destruct importances; [cbn in Hlen; lia | discriminate].
Qed.

Lemma calculate_feature_importance_falls_back_witness :
  _calculate_feature_importance wide_record (loaded_world ranking_classifier)
  = (Ok tt,
     with_self (set_feature_importance (Some (fallback_importance wide_record)))
       (loaded_world ranking_classifier)).
Proof.
  apply (calculate_feature_importance_falls_back wide_record
           (loaded_world ranking_classifier)).
  right. exists [3; 1; 9]. split; [reflexivity|].
  left. vm_compute. lia.
Defined.

(** ** The rule-based stage as a function of creatinine *)

Lemma rule_stage_bucket (c : Q) (z : Z) :
  rule_stage (VNum c) = Ok z →
  (200 < c ∧ z = 5%Z)
  ∨ (100 < c ∧ c <= 200 ∧ z = 4%Z)
  ∨ (50 < c ∧ c <= 100 ∧ z = 3%Z)
  ∨ (20 < c ∧ c <= 50 ∧ z = 2%Z)
  ∨ (15 < c ∧ c <= 20 ∧ z = 1%Z)
  ∨ (c <= 15 ∧ z = 0%Z).
Proof.
  intros Hz.
  destruct (rule_stage_table c) as (z' & Hz' & H5 & H4 & H3 & H2 & H1 & H0).
  rewrite Hz in Hz'. injection Hz' as <-.
  destruct (Qlt_le_dec 200 c); [left; split; [lra | apply H5; lra]|right].
  destruct (Qlt_le_dec 100 c); [left; repeat split; [lra | lra | apply H4; lra]|right].
  destruct (Qlt_le_dec 50 c); [left; repeat split; [lra | lra | apply H3; lra]|right].
  destruct (Qlt_le_dec 20 c); [left; repeat split; [lra | lra | apply H2; lra]|right].
  destruct (Qlt_le_dec 15 c); [left; repeat split; [lra | lra | apply H1; lra]|right].
  split; [lra | apply H0; lra].
Qed.

Lemma rule_stage_monotone (c1 c2 : Q) (z1 z2 : Z) :
  rule_stage (VNum c1) = Ok z1 → rule_stage (VNum c2) = Ok z2 →
  c1 <= c2 → (z1 ≤ z2)%Z.
Proof.
  intros H1 H2 Hle.
  apply rule_stage_bucket in H1. apply rule_stage_bucket in H2.
  destruct H1 as [H1|[H1|[H1|[H1|[H1|H1]]]]];
    destruct H2 as [H2|[H2|[H2|[H2|[H2|H2]]]]];
    destruct_and!; subst; solve [lia | exfalso; lra].
Qed.

(** X4.  On the rule-based path the stage is a monotone function of the
    creatinine alone: of two records, whatever their other features and
    whatever the state of the wrapper, the one with the larger creatinine
    never gets the smaller stage, and equal creatinines get equal
    stages. *)
Theorem fallback_stage_monotone
    (record1 record2 : PatientRecord) (w1 w2 : world) (c1 c2 : Q) :
  well_formed record1 → well_formed record2 →
  (creatinine_key, VNum c1) ∈ record1 →
  (creatinine_key, VNum c2) ∈ record2 →
  c1 <= c2 →
  ∃ z1 z2,
    fst (_fallback_predict (pd_DataFrame record1) w1) = Ok z1
    ∧ fst (_fallback_predict (pd_DataFrame record2) w2) = Ok z2
    ∧ (z1 ≤ z2)%Z
    ∧ (c2 <= c1 → z1 = z2).
Proof.
  intros Hwf1 Hwf2 Hin1 Hin2 Hle.
  pose proof (df_item_present (pd_DataFrame record1) _ _ Hwf1 Hin1) as Hitem1.
  pose proof (df_item_present (pd_DataFrame record2) _ _ Hwf2 Hin2) as Hitem2.
  destruct (rule_stage_table c1) as (z1 & Hz1 & _).
  destruct (rule_stage_table c2) as (z2 & Hz2 & _).
  exists z1, z2.
  rewrite (fallback_predict_ok _ _ _ _ Hitem1 Hz1),
    (fallback_predict_ok _ _ _ _ Hitem2 Hz2).
  split; [reflexivity|]. split; [reflexivity|].
  split; [apply (rule_stage_monotone c1 c2); assumption|].
  intros Hge.
  pose proof (rule_stage_monotone c1 c2 _ _ Hz1 Hz2 Hle).
  pose proof (rule_stage_monotone c2 c1 _ _ Hz2 Hz1 Hge). lia.
Qed.

Lemma fallback_stage_monotone_witness :
  ∃ z1 z2,
    fst (_fallback_predict (pd_DataFrame wide_record) fresh_world) = Ok z1
    ∧ fst (_fallback_predict (pd_DataFrame boundary_record)
             (loaded_world ranking_classifier)) = Ok z2
    ∧ (z1 ≤ z2)%Z
    ∧ (200 <= 30 → z1 = z2).
Proof.
  apply (fallback_stage_monotone wide_record boundary_record fresh_world
           (loaded_world ranking_classifier) 30 200).
  - apply (bool_decide_unpack _). vm_compute. reflexivity.
  - apply (bool_decide_unpack _). vm_compute. reflexivity.
  - unfold wide_record. left.
  - unfold boundary_record. left.
  - vm_compute. discriminate.
Defined.

(** ** The caches after a rule-based prediction *)

(** X5.  After [_fallback_predict] has returned a stage, with a draw in
    [0, 1), the cached probabilities single that stage out: its
    probability is below 1 and strictly above the probability of every
    other key, and every other probability is positive. *)
Theorem fallback_stage_is_mode (df : DataFrame) (w w' : world) (z : Z) :
  _fallback_predict df w = (Ok z, w') →
  0 <= rng w (rng_pos w) →
  rng w (rng_pos w) < 1 →
  ∃ d top,
    get_stage_probabilities w' = (Ok d, w')
    ∧ d !! z = Some top
    ∧ top < 1
    ∧ ∀ k v, d !! k = Some v → k ≠ z → 0 < v ∧ v < top.
Proof.
  intros Hp Hr0 Hr1.
  apply fallback_predict_returns in Hp as (c & _ & Hz & ->).
  apply rule_stage_range in Hz.
  set (r := rng w (rng_pos w)) in *.
  exists (synthetic r z), (0.75 + r * 0.2).
  split; [apply get_stage_probabilities_cached; reflexivity|].
  split; [apply synthetic_lookup_predicted|].
  split; [lra|].
  intros k v Hk Hne.
  destruct (decide (0 ≤ k ≤ 5)%Z) as [Hin|Hout].
  - rewrite synthetic_lookup_other in Hk by done. injection Hk as <-.
    unfold py_len. rewrite length_other_stages_in by done.
    change (inject_Z (Z.of_nat 5)) with 5.
    assert ((1.0 - (0.75 + r * 0.2)) / 5 == (0.25 - 0.2 * r) * 0.2) as ->
      by field.
    split; lra.
  - rewrite synthetic_lookup_outside in Hk by done. discriminate.
Qed.

Lemma fallback_stage_is_mode_witness :
  ∃ d top,
    get_stage_probabilities
      (snd (_fallback_predict boundary_record fresh_world))
    = (Ok d, snd (_fallback_predict boundary_record fresh_world))
    ∧ d !! 4%Z = Some top
    ∧ top < 1
    ∧ ∀ k v, d !! k = Some v → k ≠ 4%Z → 0 < v ∧ v < top.
Proof.
  apply (fallback_stage_is_mode boundary_record fresh_world
           (snd (_fallback_predict boundary_record fresh_world)) 4).
  - rewrite (surjective_pairing (_fallback_predict boundary_record fresh_world)) at 1.
    f_equal; vm_compute; reflexivity.
  - vm_compute. discriminate.
  - vm_compute. reflexivity.
Defined.

Lemma df_item_ok_column (df : DataFrame) (name : string) (v : value) :
  df_item df name = Ok v → name ∈ columns df.
Proof.
  induction df as [|[k x] df IH]; cbn [df_item]; [discriminate|].
  destruct (String.eqb_spec k name) as [->|Hne]; intros H; cbn.
  - left.
  - right. apply IH, H.
Qed.

Lemma get_feature_importance_cached (w : world) (fi : list (string * Q)) :
  _feature_importance (self w) = Some fi →
  get_feature_importance w = (Ok fi, w).
Proof.
  intros H. unfold get_feature_importance, bind, read. rewrite H.
  destruct fi; reflexivity.
Qed.

Lemma py_sum_member (xs : list Q) (x : Q) :
  Forall (fun v => 0 < v) xs → x ∈ xs → x <= py_sum xs.
Proof.
  induction 1 as [|y ys Hy Hys IH]; intros Hin; [by apply elem_of_nil in Hin|].
  rewrite py_sum_cons. pose proof (py_sum_nonneg ys Hys).
  apply elem_of_cons in Hin as [->|Hin]; [lra|].
  specialize (IH Hin). lra.
Qed.

Lemma py_sum_filter (P : string * Q → Prop) `{∀ kv, Decision (P kv)}
    (table : list (string * Q)) :
  Forall (fun kv => 0 < snd kv) table →
  py_sum (map snd (filter P table)) <= py_sum (map snd table).
Proof.
  induction 1 as [|kv table Hkv _ IH]; [apply Qle_refl|].
  rewrite filter_cons. cbn [map]. rewrite py_sum_cons.
  destruct (decide (P kv)); [cbn [map]; rewrite py_sum_cons|]; lra.
Qed.

Lemma priority_weights_bounded :
  Forall (fun kv => snd kv <= 0.35) priority_table.
Proof. unfold priority_table. repeat constructor; cbn; lra. Qed.

Lemma kept_total_bounds (df : DataFrame) :
  creatinine_key ∈ columns df →
  0.35 <= py_sum (map snd (kept_features df))
  ∧ py_sum (map snd (kept_features df)) <= 1.05.
Proof.
  intros Hc. split.
  - apply py_sum_member; [apply kept_weights_positive|].
    apply list_elem_of_fmap. exists (creatinine_key, 0.35). split; [reflexivity|].
    unfold kept_features. apply list_elem_of_filter. split; [exact Hc|left].
  - unfold kept_features.
    eapply Qle_trans; [apply py_sum_filter, priority_weights_positive|].
    vm_compute. discriminate.
Qed.

(** X6.  After [_fallback_predict] has returned a stage, the cached
    feature importance is not empty: it has the creatinine, with a weight
    between one third and 1 that no other weight exceeds; every weight
    is positive and the weights sum to 1. *)
Theorem fallback_importance_led_by_creatinine
    (df : DataFrame) (w w' : world) (z : Z) :
  _fallback_predict df w = (Ok z, w') →
  ∃ fi top,
    get_feature_importance w' = (Ok fi, w')
    ∧ (creatinine_key, top) ∈ fi
    ∧ (1 # 3) <= top ∧ top <= 1
    ∧ py_sum (map snd fi) == 1
    ∧ ∀ k v, (k, v) ∈ fi → 0 < v ∧ v <= top.
Proof.
  intros Hp.
  apply fallback_predict_returns in Hp as (c & Hitem & _ & ->).
  apply df_item_ok_column in Hitem.
  destruct (kept_total_bounds df Hitem) as [Hlow Hhigh].
  set (total := py_sum (map snd (kept_features df))) in *.
  assert (0 < total) as Hpos by lra.
  assert ((creatinine_key, 0.35 / total) ∈ fallback_importance df) as Htop.
  { unfold fallback_importance. apply list_elem_of_fmap.
    exists (creatinine_key, 0.35). split; [reflexivity|].
    unfold kept_features. apply list_elem_of_filter. split; [exact Hitem|left]. }
  exists (fallback_importance df), (0.35 / total).
  split; [apply get_feature_importance_cached; reflexivity|].
  split; [exact Htop|].
  split; [apply Qle_shift_div_l; [exact Hpos | lra]|].
  split; [apply Qle_shift_div_r; [exact Hpos | lra]|].
  split.
  { apply fallback_importance_sum. intros Hnil. rewrite Hnil in Htop.
    by apply elem_of_nil in Htop. }
  intros k v Hin. unfold fallback_importance in Hin.
  apply list_elem_of_fmap in Hin as ([k' v0] & Heq & Hkept).
  cbn [fst snd] in Heq. injection Heq as -> ->. fold total.
  unfold kept_features in Hkept. apply list_elem_of_filter in Hkept as [_ Hkept].
  pose proof priority_weights_positive as Hall.
  pose proof priority_weights_bounded as Hbound.
  rewrite Forall_forall in Hall, Hbound.
  specialize (Hall _ Hkept). specialize (Hbound _ Hkept). cbn [snd] in Hall, Hbound.
  pose proof (Qinv_lt_0_compat total Hpos) as Hinv.
  unfold Qdiv. split.
  - apply Qmult_lt_0_compat; assumption.
  - apply Qmult_le_compat_r; [exact Hbound | lra].
Qed.

Lemma fallback_importance_led_by_creatinine_witness :
  ∃ fi top,
    get_feature_importance (snd (_fallback_predict wide_record fresh_world))
    = (Ok fi, snd (_fallback_predict wide_record fresh_world))
    ∧ (creatinine_key, top) ∈ fi
    ∧ (1 # 3) <= top ∧ top <= 1
    ∧ py_sum (map snd fi) == 1
    ∧ ∀ k v, (k, v) ∈ fi → 0 < v ∧ v <= top.
Proof.
  apply (fallback_importance_led_by_creatinine wide_record fresh_world
           (snd (_fallback_predict wide_record fresh_world)) 2).
  rewrite (surjective_pairing (_fallback_predict wide_record fresh_world)) at 1.
  f_equal; vm_compute; reflexivity.
Defined.

(** ** Prediction with a loaded classifier *)

Lemma class_probabilities_short (classes : list Z) :
  ∀ (proba : list Q) (acc : gmap Z Q),
    (length proba < length classes)%nat →
    class_probabilities acc classes proba = Raise IndexError.
Proof.
  induction classes as [|c cs IH]; intros proba acc Hlen; [cbn in Hlen; lia|].
  destruct proba as [|p ps]; [reflexivity|].
  cbn [class_probabilities]. apply IH. cbn in Hlen. lia.
Qed.

Lemma class_probabilities_long (classes : list Z) :
  ∀ (proba : list Q) (acc : gmap Z Q),
    (length classes ≤ length proba)%nat →
    ∃ d, class_probabilities acc classes proba = Ok d.
Proof.
  induction classes as [|c cs IH]; intros proba acc Hlen; [cbn; eauto|].
  destruct proba as [|p ps]; [cbn in Hlen; lia|].
  cbn [class_probabilities]. apply IH. cbn in Hlen. lia.
Qed.

Lemma class_probabilities_lookup (classes : list Z) :
  ∀ (proba : list Q) (acc d : gmap Z Q),
    NoDup classes →
    class_probabilities acc classes proba = Ok d →
    (∀ i c p, classes !! i = Some c → proba !! i = Some p → d !! c = Some p)
    ∧ (∀ c, c ∉ classes → d !! c = acc !! c)
    ∧ (length classes ≤ length proba)%nat.
Proof.
  induction classes as [|c cs IH]; intros proba acc d Hnd Hd.
  - cbn in Hd. injection Hd as <-.
    split; [intros i c p Hc; discriminate|]. split; [done | cbn; lia].
  - destruct proba as [|p ps]; [discriminate|]. cbn [class_probabilities] in Hd.
    apply NoDup_cons in Hnd as [Hc Hnd].
    destruct (IH ps _ d Hnd Hd) as (Hin & Hout & Hlen).
    split; [|split].
    + intros [|i] c' p' Hc' Hp'; cbn in Hc', Hp'.
      * injection Hc' as <-. injection Hp' as <-.
        rewrite (Hout c Hc). apply lookup_insert_eq.
      * apply (Hin i c' p' Hc' Hp').
    + intros c' Hc'. apply not_elem_of_cons in Hc' as [Hne Hc'].
      rewrite (Hout c' Hc'). apply lookup_insert_ne. congruence.
    + cbn. lia.
Qed.

Lemma predict_loaded (input_data : PatientRecord) (w : world) :
  _model_loaded (self w) = true →
  predict input_data w
  = try_except (predict_try input_data)
      (fun _ => _fallback_predict (pd_DataFrame input_data)) w.
Proof.
  intros H. unfold predict, bind at 1, read. rewrite H. reflexivity.
Qed.

Lemma predict_try_without_proba
    (input_data : PatientRecord) (w : world) (m : model)
    (f : DataFrame → result Z) (z : Z) :
  _model (self w) = Some m → m_predict m = Some f →
  f (pd_DataFrame input_data) = Ok z →
  m_predict_proba m = None →
  ∃ fi, predict_try input_data w
        = (Ok z,
           with_self (set_feature_importance (Some fi))
             {| self := set_stage_probabilities
                          (Some (synthetic (rng w (rng_pos w)) z)) (self w);
                rng := rng w; rng_pos := S (rng_pos w) |}).
Proof.
  intros Hm Hf Hz Hg. unfold predict_try, bind at 1, read.
  rewrite Hm. cbn [mbind option_bind]. rewrite Hf, Hg.
  unfold bind at 1, lift at 1. rewrite Hz.
  unfold bind at 1. rewrite generate_fallback_probabilities_run.
  unfold bind at 1.
  match goal with |- context [_calculate_feature_importance ?d ?x] =>
    destruct (calculate_feature_importance_run d x) as [fi Hfi] end.
  rewrite Hfi. exists fi. reflexivity.
Qed.

Lemma predict_try_with_proba
    (input_data : PatientRecord) (w : world) (m : model)
    (f : DataFrame → result Z) (z : Z)
    (g : DataFrame → result (list Q)) (proba : list Q) (classes : list Z)
    (sp : gmap Z Q) :
  _model (self w) = Some m → m_predict m = Some f →
  f (pd_DataFrame input_data) = Ok z →
  m_predict_proba m = Some g →
  g (pd_DataFrame input_data) = Ok proba →
  m_classes_ m = Ok classes →
  class_probabilities ∅ classes proba = Ok sp →
  ∃ fi, predict_try input_data w
        = (Ok z,
           with_self (set_feature_importance (Some fi))
             (with_self (set_stage_probabilities (Some sp)) w)).
Proof.
  intros Hm Hf Hz Hg Hp Hc Hsp. unfold predict_try, bind at 1, read.
  rewrite Hm. cbn [mbind option_bind]. rewrite Hf, Hg.
  unfold bind at 1, lift at 1. rewrite Hz.
  unfold bind at 1. unfold bind at 1, lift at 1. rewrite Hp.
  unfold bind at 1, lift at 1. cbn [from_option]. rewrite Hc.
  unfold bind at 1, lift at 1. rewrite Hsp.
  unfold write at 1. unfold bind at 1.
  match goal with |- context [_calculate_feature_importance ?d ?x] =>
    destruct (calculate_feature_importance_run d x) as [fi Hfi] end.
  rewrite Hfi. exists fi. reflexivity.
Qed.

(** X7.  A ready wrapper whose classifier answers, and whose
    probabilities, when it has that capability, come with at least one
    value per class, returns the stage of the classifier for every
    record, with or without creatinine: the rule-based path and its
    [KeyError] do not come into play. *)
Theorem predict_trusts_working_classifier
    (input_data : PatientRecord) (w : world) (m : model)
    (f : DataFrame → result Z) (z : Z) :
  _model_loaded (self w) = true →
  _model (self w) = Some m →
  m_predict m = Some f →
  f (pd_DataFrame input_data) = Ok z →
  (m_predict_proba m = None
   ∨ ∃ g proba classes,
       m_predict_proba m = Some g
       ∧ g (pd_DataFrame input_data) = Ok proba
       ∧ m_classes_ m = Ok classes
       ∧ (length classes ≤ length proba)%nat) →
  fst (predict input_data w) = Ok z.
Proof.
  intros Hloaded Hm Hf Hz Hproba. rewrite (predict_loaded _ _ Hloaded).
  unfold try_except.
  destruct Hproba as [Hnone|(g & proba & classes & Hg & Hp & Hc & Hlen)].
  - destruct (predict_try_without_proba _ _ _ _ _ Hm Hf Hz Hnone) as [fi ->].
    reflexivity.
  - destruct (class_probabilities_long classes proba ∅ Hlen) as [sp Hsp].
    destruct (predict_try_with_proba _ _ _ _ _ _ _ _ _ Hm Hf Hz Hg Hp Hc Hsp)
      as [fi ->].
    reflexivity.
Qed.

Lemma predict_trusts_working_classifier_witness :
  fst (predict age_only_record (loaded_world ranking_classifier)) = Ok 2%Z.
Proof.
  apply (predict_trusts_working_classifier age_only_record
           (loaded_world ranking_classifier) ranking_classifier
           (fun _ => Ok 2%Z) 2).
  - reflexivity.
  - reflexivity.
  - reflexivity.
  - reflexivity.
  - left. reflexivity.
Defined.

(** X8.  When the classifier of a ready wrapper answers and gives a
    probability to each of its pairwise distinct classes, [predict]
    caches those probabilities as they are: the keys of the cached
    mapping are the classes of the classifier, stage by stage, whether or
    not they are the six stages, and each class has the probability the
    classifier gave it, neither completed nor renormalised. *)
Theorem predict_caches_class_probabilities
    (input_data : PatientRecord) (w : world) (m : model)
    (f : DataFrame → result Z) (z : Z)
    (g : DataFrame → result (list Q)) (proba : list Q) (classes : list Z) :
  _model_loaded (self w) = true →
  _model (self w) = Some m →
  m_predict m = Some f →
  f (pd_DataFrame input_data) = Ok z →
  m_predict_proba m = Some g →
  g (pd_DataFrame input_data) = Ok proba →
  m_classes_ m = Ok classes →
  NoDup classes →
  (length classes ≤ length proba)%nat →
  ∃ d,
    get_stage_probabilities (snd (predict input_data w))
    = (Ok d, snd (predict input_data w))
    ∧ dom d = list_to_set classes
    ∧ ∀ i c p, classes !! i = Some c → proba !! i = Some p → d !! c = Some p.
Proof.
  intros Hloaded Hm Hf Hz Hg Hp Hc Hnd Hlen.
  destruct (class_probabilities_long classes proba ∅ Hlen) as [sp Hsp].
  destruct (predict_try_with_proba _ _ _ _ _ _ _ _ _ Hm Hf Hz Hg Hp Hc Hsp)
    as [fi Htry].
  rewrite (predict_loaded _ _ Hloaded). unfold try_except. rewrite Htry.
  cbn [snd].
  destruct (class_probabilities_lookup _ _ _ _ Hnd Hsp) as (Hin & Hout & _).
  exists sp. split; [apply get_stage_probabilities_cached; reflexivity|].
  split; [|exact Hin].
  apply set_eq. intros c. rewrite elem_of_dom, elem_of_list_to_set.
  split.
  - intros [p Hcp]. destruct (decide (c ∈ classes)) as [|Hnot]; [done|].
    rewrite (Hout c Hnot), lookup_empty in Hcp. discriminate.
  - intros Hcin. apply list_elem_of_lookup in Hcin as [i Hi].
    destruct (lookup_lt_is_Some_2 proba i) as [p Hpi].
    { apply lookup_lt_Some in Hi. lia. }
    exists p. apply (Hin i c p Hi Hpi).
Qed.

Lemma predict_caches_class_probabilities_witness :
  ∃ d,
    get_stage_probabilities
      (snd (predict boundary_record (loaded_world two_class_classifier)))
    = (Ok d, snd (predict boundary_record (loaded_world two_class_classifier)))
    ∧ dom d = list_to_set [1; 4]%Z
    ∧ ∀ i c p, [1; 4]%Z !! i = Some c → [0.3; 0.7] !! i = Some p →
               d !! c = Some p.
Proof.
  apply (predict_caches_class_probabilities boundary_record
           (loaded_world two_class_classifier) two_class_classifier
           (fun _ => Ok 4%Z) 4 (fun _ => Ok [0.3; 0.7])).
  - reflexivity.
  - reflexivity.
  - reflexivity.
  - reflexivity.
  - reflexivity.
  - reflexivity.
  - reflexivity.
  - apply (bool_decide_unpack _). vm_compute. reflexivity.
  - vm_compute. lia.
Defined.

(** X9.  When the classifier of a ready wrapper answers a stage but its
    [predict_proba] raises, its [classes_] cannot be read, or it returns
    fewer probabilities than it has classes, [predict] drops the answer
    of the classifier: for a record with a numeric creatinine it returns
    the stage of the threshold table and leaves the wrapper as a
    rule-based prediction from the state before the call does. *)
Theorem predict_drops_classifier_on_proba_failure
    (input_data : PatientRecord) (w : world) (m : model)
    (f : DataFrame → result Z) (answered : Z)
    (g : DataFrame → result (list Q)) (v : value) (z : Z) :
  _model_loaded (self w) = true →
  _model (self w) = Some m →
  m_predict m = Some f →
  f (pd_DataFrame input_data) = Ok answered →
  m_predict_proba m = Some g →
  (is_ok (g (pd_DataFrame input_data)) = false
   ∨ is_ok (m_classes_ m) = false
   ∨ ∃ proba classes,
       g (pd_DataFrame input_data) = Ok proba
       ∧ m_classes_ m = Ok classes
       ∧ (length proba < length classes)%nat) →
  df_item (pd_DataFrame input_data) creatinine_key = Ok v →
  rule_stage v = Ok z →
  predict input_data w
  = (Ok z, after_fallback (pd_DataFrame input_data) z w).
Proof.
  intros Hloaded Hm Hf Hz Hg Hfail Hitem Hv.
  rewrite (predict_loaded _ _ Hloaded). unfold try_except.
  destruct (predict_try input_data w) as [[z'|e] w1] eqn:Htry.
  - exfalso. revert Htry. unfold predict_try, bind at 1, read.
    rewrite Hm. cbn [mbind option_bind]. rewrite Hf, Hg.
    unfold bind at 1, lift at 1. rewrite Hz.
    unfold bind at 1. unfold bind at 1, lift at 1.
    destruct (g (pd_DataFrame input_data)) as [proba|e] eqn:Hp; [|discriminate].
    unfold bind at 1, lift at 1. cbn [from_option].
    destruct (m_classes_ m) as [classes|e] eqn:Hc; [|discriminate].
    destruct Hfail as [Hfail|[Hfail|(proba' & classes' & Hp' & Hc' & Hlen)]];
      [discriminate | discriminate |].
    injection Hp' as <-. injection Hc' as <-.
    unfold bind at 1, lift at 1.
    rewrite (class_probabilities_short _ _ _ Hlen). discriminate.
  - apply predict_try_raises in Htry as ->.
    apply (fallback_predict_ok _ _ _ _ Hitem Hv).
Qed.

Lemma predict_drops_classifier_on_proba_failure_witness :
  predict boundary_record (loaded_world half_working_classifier)
  = (Ok 4%Z,
     after_fallback (pd_DataFrame boundary_record) 4
       (loaded_world half_working_classifier)).
Proof.
  apply (predict_drops_classifier_on_proba_failure boundary_record
           (loaded_world half_working_classifier) half_working_classifier
           (fun _ => Ok 5%Z) 5 (fun _ => Raise AttributeError) (VNum 200) 4).
  - reflexivity.
  - reflexivity.
  - reflexivity.
  - reflexivity.
  - reflexivity.
  - left. reflexivity.
  - reflexivity.
  - reflexivity.
Defined.

(** ** What every returning [predict] leaves in the wrapper *)

Lemma calculate_feature_importance_normalised (df : DataFrame) (w : world) :
  ∃ fi, _calculate_feature_importance df w
        = (Ok tt, with_self (set_feature_importance (Some fi)) w)
        ∧ (fi = [] ∨ py_sum (map snd fi) == 1).
Proof.
  assert (fallback_importance df = [] ∨ py_sum (map snd (fallback_importance df)) == 1)
    as Hfallback.
  { destruct (fallback_importance df) as [|kv fi] eqn:E; [left; reflexivity|].
    right. rewrite <- E. apply fallback_importance_sum. rewrite E. discriminate. }
  unfold _calculate_feature_importance, try_except, bind at 1, read.
  destruct (_model (self w) ≫= m_feature_importances_) as [importances|].
  - unfold bind, lift, write.
    destruct (pair_importances (columns df) importances) as [raw|e].
    + destruct (Qeq_bool (py_sum (map snd raw)) 0) eqn:Ezero.
      * destruct raw as [|kv raw].
        -- exists []. split; [reflexivity | left; reflexivity].
        -- rewrite (normalise_zero _ _ Ezero) by discriminate.
           rewrite generate_fallback_feature_importance_run. eauto.
      * rewrite (normalise_nonzero _ _ Ezero).
        eexists. split; [reflexivity|]. right.
        pose proof (Qeq_bool_false_neq _ Ezero) as Hne.
        rewrite py_sum_normalised by exact Hne. field. exact Hne.
    + rewrite generate_fallback_feature_importance_run. eauto.
  - rewrite !generate_fallback_feature_importance_run. eauto.
Qed.

Lemma predict_try_returns_world
    (input_data : PatientRecord) (w w' : world) (z : Z) :
  predict_try input_data w = (Ok z, w') →
  w' = after_fallback (pd_DataFrame input_data) z w
  ∨ ∃ w1,
      rng w1 = rng w
      ∧ (rng_pos w1 = rng_pos w ∨ rng_pos w1 = S (rng_pos w))
      ∧ _calculate_feature_importance (pd_DataFrame input_data) w1 = (Ok tt, w').
Proof.
  unfold predict_try, bind at 1, read.
  destruct (_model (self w)) as [m|]; cbn [mbind option_bind].
  2:{ intros H. apply fallback_predict_returns in H as (v & _ & _ & ->). by left. }
  destruct (m_predict m) as [f|].
  2:{ intros H. apply fallback_predict_returns in H as (v & _ & _ & ->). by left. }
  unfold bind at 1, lift at 1.
  destruct (f (pd_DataFrame input_data)) as [stage|e]; [|discriminate].
  destruct (m_predict_proba m) as [g|].
  - unfold bind at 1. unfold bind at 1, lift at 1.
    destruct (g (pd_DataFrame input_data)) as [proba|e]; [|discriminate].
    unfold bind at 1, lift at 1. cbn [from_option].
    destruct (m_classes_ m) as [classes|e]; [|discriminate].
    unfold bind at 1, lift at 1.
    destruct (class_probabilities ∅ classes proba) as [sp|e]; [|discriminate].
    unfold write at 1. unfold bind at 1.
    match goal with |- context [_calculate_feature_importance ?d ?x] =>
      destruct (_calculate_feature_importance d x) as [[[]|e] w2] eqn:Hcalc end;
      [|discriminate].
    cbn [ret]. intros H. injection H as _ <-. right.
    eexists. split; [|split; [|exact Hcalc]]; [reflexivity | left; reflexivity].
  - unfold bind at 1. rewrite generate_fallback_probabilities_run.
    unfold bind at 1.
    match goal with |- context [_calculate_feature_importance ?d ?x] =>
      destruct (_calculate_feature_importance d x) as [[[]|e] w2] eqn:Hcalc end;
      [|discriminate].
    cbn [ret]. intros H. injection H as _ <-. right.
    eexists. split; [|split; [|exact Hcalc]]; [reflexivity | right; reflexivity].
Qed.

Lemma predict_returns_world
    (input_data : PatientRecord) (w w' : world) (z : Z) :
  predict input_data w = (Ok z, w') →
  w' = after_fallback (pd_DataFrame input_data) z w
  ∨ ∃ w1,
      rng w1 = rng w
      ∧ (rng_pos w1 = rng_pos w ∨ rng_pos w1 = S (rng_pos w))
      ∧ _calculate_feature_importance (pd_DataFrame input_data) w1 = (Ok tt, w').
Proof.
  unfold predict, bind at 1, read.
  destruct (_model_loaded (self w)); cbn [negb].
  - unfold try_except.
    destruct (predict_try input_data w) as [[z'|e] w1] eqn:Htry.
    + intros H. injection H as <- <-. apply (predict_try_returns_world _ _ _ _ Htry).
    + apply predict_try_raises in Htry as ->.
      intros H. apply fallback_predict_returns in H as (v & _ & _ & ->). by left.
  - intros H. apply fallback_predict_returns in H as (v & _ & _ & ->). by left.
Qed.

(** X10.  After every call of [predict] that returns, whatever path it
    took and whatever the classifier, [get_feature_importance] returns a
    mapping that is either empty or has weights that sum to 1. *)
Theorem feature_importance_after_predict
    (input_data : PatientRecord) (w w' : world) (z : Z) :
  predict input_data w = (Ok z, w') →
  ∃ fi,
    get_feature_importance w' = (Ok fi, w')
    ∧ (fi = [] ∨ py_sum (map snd fi) == 1).
Proof.
  intros Hp. apply predict_returns_world in Hp as [->|(w1 & _ & _ & Hcalc)].
  - exists (fallback_importance (pd_DataFrame input_data)).
    split; [apply get_feature_importance_cached; reflexivity|].
    destruct (fallback_importance (pd_DataFrame input_data)) as [|kv fi] eqn:E;
      [left; reflexivity|].
    right. rewrite <- E. apply fallback_importance_sum. rewrite E. discriminate.
  - destruct (calculate_feature_importance_normalised (pd_DataFrame input_data) w1)
      as (fi & Hrun & Hfi).
    rewrite Hrun in Hcalc. injection Hcalc as <-.
    exists fi. split; [apply get_feature_importance_cached; reflexivity | exact Hfi].
Qed.

Lemma feature_importance_after_predict_witness :
  ∃ fi,
    get_feature_importance
      (snd (predict wide_record (loaded_world ranking_classifier)))
    = (Ok fi, snd (predict wide_record (loaded_world ranking_classifier)))
    ∧ (fi = [] ∨ py_sum (map snd fi) == 1).
Proof.
  apply (feature_importance_after_predict wide_record
           (loaded_world ranking_classifier)
           (snd (predict wide_record (loaded_world ranking_classifier))) 2).
  rewrite (surjective_pairing (predict wide_record (loaded_world ranking_classifier))) at 1.
  f_equal; vm_compute; reflexivity.
Defined.

(** X11.  A call of [predict] reads at most one draw of the random
    generator and never reseeds it: afterwards the sequence of draws is
    the same and the position has advanced by zero or by one.  A call
    that raises reads none. *)
Theorem predict_draws_at_most_once (input_data : PatientRecord) (w : world) :
  let w' := snd (predict input_data w) in
  rng w' = rng w
  ∧ (rng_pos w' = rng_pos w ∨ rng_pos w' = S (rng_pos w))
  ∧ (is_ok (fst (predict input_data w)) = false → rng_pos w' = rng_pos w).
Proof.
  cbn zeta.
  destruct (predict input_data w) as [[z|e] w'] eqn:Hp; cbn [fst snd is_ok].
  - apply predict_returns_world in Hp as [->|(w1 & Hrng & Hpos & Hcalc)].
    + split; [reflexivity|]. split; [right; reflexivity | discriminate].
    + destruct (calculate_feature_importance_run (pd_DataFrame input_data) w1)
        as [fi Hrun].
      rewrite Hrun in Hcalc. injection Hcalc as <-. cbn [with_self rng rng_pos].
      split; [exact Hrng|]. split; [exact Hpos | discriminate].
  - apply raising_predict_changes_nothing in Hp as ->.
    split; [reflexivity|]. split; [left; reflexivity | reflexivity].
Qed.

(** ** The loader thread, step by step *)

Lemma loader_next_pc (env : environment) (pc : loader_pc) (s : LazyIRCModel) :
  fst (loader_next env pc s) = pc_next env pc.
Proof.
  unfold pc_next. destruct pc; cbn [loader_next];
    try (destruct (pickle_load env));
    try (destruct (RandomForestClassifier env)); reflexivity.
Qed.

Lemma sys_step_pc (env : environment) (sys : system) (a : action) :
  sys_pc (sys_step env sys a)
  = match a with LoaderStep => pc_next env (sys_pc sys) | _ => sys_pc sys end.
Proof.
  destruct a; try reflexivity. cbn [sys_step].
  rewrite <- (loader_next_pc env (sys_pc sys) (self (sys_world sys))).
  destruct (loader_next env (sys_pc sys) (self (sys_world sys))). reflexivity.
Qed.

Lemma run_pc (env : environment) (acts : list action) :
  ∀ sys,
    sys_pc (run env sys acts)
    = Nat.iter (loader_steps acts) (pc_next env) (sys_pc sys).
Proof.
  unfold run. induction acts as [|a acts IH]; intros sys; [reflexivity|].
  cbn [foldl]. rewrite IH, sys_step_pc.
  destruct a; cbn [loader_steps]; try reflexivity.
  symmetry. apply Nat.iter_succ_r.
Qed.

Lemma terminal_fixed (env : environment) (pc : loader_pc) :
  terminal pc = true → pc_next env pc = pc.
Proof. destruct pc; cbn; intros H; try discriminate; reflexivity. Qed.

Lemma terminal_iter (env : environment) (n : nat) (pc : loader_pc) :
  terminal pc = true → Nat.iter n (pc_next env) pc = pc.
Proof.
  intros H. induction n as [|n IH]; [reflexivity|].
  rewrite Nat.iter_succ, IH. apply terminal_fixed, H.
Qed.

Lemma terminal_after_four (env : environment) (n : nat) :
  (4 ≤ n)%nat → terminal (Nat.iter n (pc_next env) Started) = true.
Proof.
  intros Hn. replace n with ((n - 4) + 4)%nat by lia.
  rewrite Nat.iter_add.
  assert (terminal (Nat.iter 4 (pc_next env) Started) = true) as H4.
  { unfold pc_next. cbn.
    destruct (pickle_load env); cbn;
      [reflexivity | destruct (RandomForestClassifier env); reflexivity]. }
  rewrite (terminal_iter env _ _ H4). exact H4.
Qed.

(** X12.  The loader needs at most four steps.  In every run in which it
    has taken four steps or more, however the calls of the public methods
    are interleaved with them, the thread is over, [_model_loading] is
    false, and the wrapper is ready exactly when the unpickling succeeded
    or, failing that, the fallback classifier could be built. *)
Theorem loader_finishes_in_four_steps
    (env : environment) (draws : nat → Q) (pos : nat) (acts : list action) :
  (4 ≤ loader_steps acts)%nat →
  let sys := run env (construct draws pos) acts in
  terminal (sys_pc sys) = true
  ∧ _model_loading (self (sys_world sys)) = false
  ∧ ready sys
    = is_ok (pickle_load env) || is_ok (RandomForestClassifier env).
Proof.
  intros Hsteps sys.
  pose proof (loader_inv_run env acts _ (loader_inv_construct env draws pos))
    as (Hpc & _ & Hloading & Hloaded).
  fold sys in Hpc, Hloading, Hloaded.
  assert (terminal (sys_pc sys) = true) as Hterm.
  { unfold sys. rewrite run_pc. apply terminal_after_four, Hsteps. }
  split; [exact Hterm|]. unfold ready. rewrite Hloading, Hloaded.
  destruct (sys_pc sys); try discriminate; cbn in Hpc |- *.
  - rewrite Hpc. split; reflexivity.
  - destruct Hpc as [-> ->]. split; reflexivity.
  - destruct Hpc as [-> ->]. split; reflexivity.
Qed.

Lemma loader_finishes_in_four_steps_witness :
  let sys := run bare_environment (construct half_draws 0)
               [LoaderStep; CallGetStatus; LoaderStep;
                CallPredict boundary_record; LoaderStep; LoaderStep] in
  terminal (sys_pc sys) = true
  ∧ _model_loading (self (sys_world sys)) = false
  ∧ ready sys
    = is_ok (pickle_load bare_environment)
      || is_ok (RandomForestClassifier bare_environment).
Proof.
  apply (loader_finishes_in_four_steps bare_environment half_draws 0
           [LoaderStep; CallGetStatus; LoaderStep;
            CallPredict boundary_record; LoaderStep; LoaderStep]).
  vm_compute. lia.
Defined.

Lemma completed_next (env : environment) (pc : loader_pc) :
  load_completed pc = true →
  load_completed (pc_next env pc) = true
  ∧ stored_object env (pc_next env pc) = stored_object env pc.
Proof. destruct pc; cbn; intros H; try discriminate; split; reflexivity. Qed.

Lemma completed_iter (env : environment) (n : nat) (pc : loader_pc) :
  load_completed pc = true →
  load_completed (Nat.iter n (pc_next env) pc) = true
  ∧ stored_object env (Nat.iter n (pc_next env) pc) = stored_object env pc.
Proof.
  intros H. induction n as [|n [IHc IHs]]; [split; [exact H | reflexivity]|].
  rewrite Nat.iter_succ. destruct (completed_next env _ IHc) as [Hc Hs].
  split; [exact Hc | congruence].
Qed.

(** X13.  Once [is_model_ready] has answered true, an object is stored
    and it is never replaced: in every continuation of the run, whatever
    the loader and the callers still do, [_model] holds the same
    object. *)
Theorem model_fixed_once_ready
    (env : environment) (draws : nat → Q) (pos : nat) (acts more : list action) :
  let sys := run env (construct draws pos) acts in
  fst (is_model_ready (sys_world sys)) = Ok true →
  ∃ m,
    _model (self (sys_world sys)) = Some m
    ∧ _model (self (sys_world (run env sys more))) = Some m.
Proof.
  intros sys Hready.
  pose proof (loader_inv_run env acts _ (loader_inv_construct env draws pos))
    as (Hpc & Hm & _ & Hloaded).
  pose proof (loader_inv_run env (acts ++ more) _ (loader_inv_construct env draws pos))
    as (_ & Hm' & _ & _).
  rewrite run_app in Hm'. fold sys in Hpc, Hm, Hloaded, Hm'.
  unfold is_model_ready, read in Hready. cbn [fst] in Hready.
  injection Hready as Hready. rewrite Hloaded in Hready.
  rewrite run_pc in Hm'.
  destruct (completed_iter env (loader_steps more) _ Hready) as [_ Hsame].
  rewrite Hsame in Hm'. rewrite Hm', Hm.
  destruct (sys_pc sys); try discriminate; cbn in Hpc |- *.
  - destruct (pickle_load env) as [m|e]; [eauto | discriminate].
  - destruct (pickle_load env) as [m|e]; [eauto | discriminate].
  - destruct Hpc as [_ Hr].
    destruct (RandomForestClassifier env) as [m|e]; [eauto | discriminate].
Qed.

Lemma model_fixed_once_ready_witness :
  ∃ m,
    _model (self (sys_world (run classifier_environment (construct half_draws 0)
                               [LoaderStep; LoaderStep]))) = Some m
    ∧ _model (self (sys_world
                      (run classifier_environment
                         (run classifier_environment (construct half_draws 0)
                            [LoaderStep; LoaderStep])
                         [CallPredict boundary_record; LoaderStep; LoaderStep])))
      = Some m.
Proof.
  apply (model_fixed_once_ready classifier_environment half_draws 0
           [LoaderStep; LoaderStep]
           [CallPredict boundary_record; LoaderStep; LoaderStep]).
  reflexivity.
Defined.

(** ** What the public methods never write *)

(** X14.  No method of the public interface writes [_model],
    [_model_loading] or [_model_loaded]: [predict] leaves the three as
    they are whether it returns or raises, so that a call can neither
    make the wrapper ready nor swap its classifier, and the four
    accessors change nothing at all. *)
Theorem public_methods_leave_handle (input_data : PatientRecord) (w : world) :
  (let s := self (snd (predict input_data w)) in
   _model s = _model (self w)
   ∧ _model_loading s = _model_loading (self w)
   ∧ _model_loaded s = _model_loaded (self w))
  ∧ snd (is_model_ready w) = w
  ∧ snd (get_stage_probabilities w) = w
  ∧ snd (get_feature_importance w) = w
  ∧ snd (get_status w) = w.
Proof.
  split; [apply (keeps_predict input_data w)|].
  split; [apply is_model_ready_read_only|].
  split; [apply get_stage_probabilities_read_only|].
  split; [apply get_feature_importance_read_only | apply get_status_read_only].
Qed.

(** ** A creatinine that is not a number *)

(** X15.  On the rule-based path a creatinine that is NaN is no error:
    every comparison of the chain is false, and [predict] returns
    stage 0. *)
Theorem nan_creatinine_is_stage_zero (input_data : PatientRecord) (w : world) :
  well_formed input_data →
  (creatinine_key, VNaN) ∈ input_data →
  routes_to_fallback input_data w →
  fst (predict input_data w) = Ok 0%Z.
Proof.
  intros Hwf Hin Hroute.
  pose proof (df_item_present (pd_DataFrame input_data) _ _ Hwf Hin) as Hitem.
  destruct (predict_fallback_route _ _ Hroute) as [w1 ->].
  rewrite (fallback_predict_ok _ _ VNaN 0 Hitem); reflexivity.
Qed.

Lemma nan_creatinine_is_stage_zero_witness :
  fst (predict [(creatinine_key, VNaN); ("Age"%string, VNum 61)] fresh_world)
  = Ok 0%Z.
Proof.
  apply (nan_creatinine_is_stage_zero
           [(creatinine_key, VNaN); ("Age"%string, VNum 61)] fresh_world).
  - apply (bool_decide_unpack _). vm_compute. reflexivity.
  - left.
  - left. reflexivity.
Defined.

(** X16.  On the rule-based path a creatinine that does not order
    against a number, a text for instance, makes [predict] raise
    [TypeError] at the first comparison, before anything is written: the
    wrapper is left as it was. *)
Theorem text_creatinine_raises_typeerror
    (input_data : PatientRecord) (w : world) (s : string) :
  well_formed input_data →
  (creatinine_key, VStr s) ∈ input_data →
  routes_to_fallback input_data w →
  predict input_data w = (Raise TypeError, w).
Proof.
  intros Hwf Hin Hroute.
  pose proof (df_item_present (pd_DataFrame input_data) _ _ Hwf Hin) as Hitem.
  destruct (predict input_data w) as [[z|e] w'] eqn:Hp.
  - exfalso. destruct (predict_fallback_route _ _ Hroute) as [w1 Heq].
    rewrite Heq, (fallback_predict_unordered _ _ (VStr s) TypeError Hitem) in Hp;
      [discriminate | reflexivity].
  - destruct (predict_fallback_route _ _ Hroute) as [w1 Heq].
    pose proof Hp as Hsame. apply raising_predict_changes_nothing in Hsame as ->.
    rewrite Heq, (fallback_predict_unordered _ _ (VStr s) TypeError Hitem) in Hp;
      [|reflexivity].
    injection Hp as <- _. reflexivity.
Qed.

Lemma text_creatinine_raises_typeerror_witness :
  predict [(creatinine_key, VStr "élevée")] fresh_world
  = (Raise TypeError, fresh_world).
Proof.
  apply (text_creatinine_raises_typeerror
           [(creatinine_key, VStr "élevée")] fresh_world "élevée").
  - apply (bool_decide_unpack _). vm_compute. reflexivity.
  - left.
  - left. reflexivity.
Defined.

(** ** Nothing of an earlier call survives a returning [predict] *)

Lemma calculate_feature_importance_closed (df : DataFrame) (w : world) :
  _calculate_feature_importance df w
  = (Ok tt,
     with_self (set_feature_importance
                  (Some (calculated_importance df (_model (self w))))) w).
Proof.
  unfold _calculate_feature_importance, calculated_importance,
    try_except, bind at 1, read.
  destruct (_model (self w) ≫= m_feature_importances_) as [importances|].
  - unfold bind, lift, write.
    destruct (pair_importances (columns df) importances) as [raw|e].
    + destruct (normalise (py_sum (map snd raw)) raw) as [normalised|e].
      * reflexivity.
      * rewrite generate_fallback_feature_importance_run. reflexivity.
    + rewrite generate_fallback_feature_importance_run. reflexivity.
  - rewrite !generate_fallback_feature_importance_run. reflexivity.
Qed.

Lemma fallback_predict_closed (df : DataFrame) (w : world) :
  _fallback_predict df w = fallback_outcome df w.
Proof.
  unfold fallback_outcome.
  destruct (df_item df creatinine_key) as [v|e] eqn:Hitem.
  - destruct (rule_stage v) as [z|e] eqn:Hv.
    + apply (fallback_predict_ok _ _ _ _ Hitem Hv).
    + apply (fallback_predict_unordered _ _ _ _ Hitem Hv).
  - apply (fallback_predict_missing _ _ _ Hitem).
Qed.

Lemma predict_try_closed (input_data : PatientRecord) (w : world) :
  predict_try input_data w = try_outcome input_data w.
Proof.
  unfold predict_try, try_outcome, bind at 1, read. cbn zeta.
  destruct (_model (self w) ≫= m_predict) as [f|];
    [|apply fallback_predict_closed].
  unfold bind at 1, lift at 1.
  destruct (f (pd_DataFrame input_data)) as [z|e]; [|reflexivity].
  destruct (_model (self w) ≫= m_predict_proba) as [g|].
  - unfold bind at 1. unfold bind at 1, lift at 1.
    destruct (g (pd_DataFrame input_data)) as [proba|e]; [|reflexivity].
    unfold bind at 1, lift at 1.
    destruct (from_option m_classes_ (Raise AttributeError) (_model (self w)))
      as [classes|e]; [|reflexivity].
    unfold bind at 1, lift at 1.
    destruct (class_probabilities ∅ classes proba) as [sp|e]; [|reflexivity].
    unfold write at 1. unfold bind at 1.
    rewrite calculate_feature_importance_closed. reflexivity.
  - unfold bind at 1. rewrite generate_fallback_probabilities_run.
    unfold bind at 1. rewrite calculate_feature_importance_closed. reflexivity.
Qed.

Lemma fallback_outcome_forgets (df : DataFrame) (w : world)
    (sp : option (gmap Z Q)) (fi : option (list (string * Q))) :
  fst (fallback_outcome df (with_caches sp fi w)) = fst (fallback_outcome df w)
  ∧ (is_ok (fst (fallback_outcome df w)) = true →
     snd (fallback_outcome df (with_caches sp fi w)) = snd (fallback_outcome df w)).
Proof.
  unfold fallback_outcome.
  destruct (df_item df creatinine_key) as [v|e]; [|split; [reflexivity | discriminate]].
  destruct (rule_stage v) as [z|e]; split; try reflexivity; discriminate.
Qed.

Lemma try_outcome_forgets (input_data : PatientRecord) (w : world)
    (sp : option (gmap Z Q)) (fi : option (list (string * Q))) :
  fst (try_outcome input_data (with_caches sp fi w))
  = fst (try_outcome input_data w)
  ∧ (is_ok (fst (try_outcome input_data w)) = true →
     snd (try_outcome input_data (with_caches sp fi w))
     = snd (try_outcome input_data w)).
Proof.
  unfold try_outcome. cbn zeta.
  change (_model (self (with_caches sp fi w))) with (_model (self w)).
  destruct (_model (self w) ≫= m_predict) as [f|];
    [|apply fallback_outcome_forgets].
  destruct (f (pd_DataFrame input_data)) as [z|e];
    [|split; [reflexivity | discriminate]].
  destruct (_model (self w) ≫= m_predict_proba) as [g|];
    [|split; reflexivity].
  destruct (g (pd_DataFrame input_data)) as [proba|e];
    [|split; [reflexivity | discriminate]].
  destruct (from_option m_classes_ (Raise AttributeError) (_model (self w)))
    as [classes|e]; [|split; [reflexivity | discriminate]].
  destruct (class_probabilities ∅ classes proba) as [sp'|e];
    [|split; [reflexivity | discriminate]].
  split; reflexivity.
Qed.

Lemma predict_closed (input_data : PatientRecord) (w : world) :
  predict input_data w
  = if _model_loaded (self w)
    then match try_outcome input_data w with
         | (Ok z, w') => (Ok z, w')
         | (Raise _, _) => fallback_outcome (pd_DataFrame input_data) w
         end
    else fallback_outcome (pd_DataFrame input_data) w.
Proof.
  unfold predict, bind at 1, read.
  destruct (_model_loaded (self w)); cbn [negb];
    [|apply fallback_predict_closed].
  unfold try_except. rewrite <- predict_try_closed.
  destruct (predict_try input_data w) as [[z|e] w1] eqn:Htry; [reflexivity|].
  apply predict_try_raises in Htry as ->. apply fallback_predict_closed.
Qed.

(** X17.  A call of [predict] does not look at the caches and, when it
    returns, overwrites both of them: started from the same wrapper with
    any other cached probabilities and importance, it gives the same
    answer, and a returning call leaves exactly the same state.  Nothing
    cached for an earlier record shows through. *)
Theorem predict_forgets_previous_caches
    (input_data : PatientRecord) (w : world)
    (sp : option (gmap Z Q)) (fi : option (list (string * Q))) :
  fst (predict input_data (with_caches sp fi w)) = fst (predict input_data w)
  ∧ (is_ok (fst (predict input_data w)) = true →
     snd (predict input_data (with_caches sp fi w)) = snd (predict input_data w)).
Proof.
  rewrite !predict_closed.
  change (_model_loaded (self (with_caches sp fi w)))
    with (_model_loaded (self w)).
  pose proof (fallback_outcome_forgets (pd_DataFrame input_data) w sp fi) as Hfb.
  destruct (_model_loaded (self w)); [|exact Hfb].
  destruct (try_outcome_forgets input_data w sp fi) as [Hfst Hsnd].
  destruct (try_outcome input_data w) as [[z|e] w1];
    destruct (try_outcome input_data (with_caches sp fi w)) as [[z2|e2] w2];
    cbn [fst snd is_ok] in *; try discriminate.
  - injection Hfst as ->. rewrite (Hsnd eq_refl). split; reflexivity.
  - exact Hfb.
Qed.

(** ** The synthetic importance does not read the patient *)

(** X18.  The synthetic feature importance depends on the names of the
    columns only: two frames with the same set of column names, whatever
    their values and the order of their columns, get the same cached
    mapping, in the order of the priority table. *)
Theorem fallback_importance_reads_names_only
    (df1 df2 : DataFrame) (w : world) :
  (∀ k, k ∈ columns df1 ↔ k ∈ columns df2) →
  _generate_fallback_feature_importance df1 w
  = _generate_fallback_feature_importance df2 w
  ∧ ∃ fi, _feature_importance
            (self (snd (_generate_fallback_feature_importance df1 w))) = Some fi
          ∧ map fst fi `sublist_of` map fst priority_table.
Proof.
  intros Hsame.
  assert (kept_features df1 = kept_features df2) as Hkept.
  { unfold kept_features. apply list_filter_iff. intros kv. apply Hsame. }
  rewrite !generate_fallback_feature_importance_run.
  assert (fallback_importance df1 = fallback_importance df2) as Heq
    by (unfold fallback_importance; rewrite Hkept; reflexivity).
  split; [rewrite Heq; reflexivity|].
  exists (fallback_importance df1). split; [reflexivity|].
  rewrite fallback_importance_names. unfold kept_features.
  apply (fmap_sublist fst), sublist_filter.
Qed.

Lemma fallback_importance_reads_names_only_witness :
  _generate_fallback_feature_importance boundary_record fresh_world
  = _generate_fallback_feature_importance
      [("Age"%string, VStr "old"); (creatinine_key, VNaN)] fresh_world
  ∧ ∃ fi, _feature_importance
            (self (snd (_generate_fallback_feature_importance
                          boundary_record fresh_world))) = Some fi
          ∧ map fst fi `sublist_of` map fst priority_table.
Proof.
  apply (fallback_importance_reads_names_only boundary_record
           [("Age"%string, VStr "old"); (creatinine_key, VNaN)] fresh_world).
  intros k. cbn. rewrite !elem_of_cons, !elem_of_nil. tauto.
Defined.
